(** * cairo_program_gen: classification of hint variables and program assembly

    A shallow embedding of [fuzzer/diff_fuzzer/cairo_program_gen.py].

    Python strings are sequences of Unicode code points: [pystr] is [list N].
    Python dictionaries keep insertion order: they are association lists with
    Python's update discipline.  Python sets iterate in an order fixed by the
    hash table, which the program does not control: the order is a parameter
    ([SetOrder]) of which only "it enumerates the set" is known.
    A [KeyError] or [IndexError] is the result [None]. *)

From Stdlib Require Import String Ascii DecimalString DecimalNat.
From Stdlib Require Import List ZArith NArith Bool Lia Permutation.
Import ListNotations.
Open Scope Z_scope.
Open Scope list_scope.

(** ** Python strings *)

Definition pystr := list N.

Definition py (s : string) : pystr := map N_of_ascii (list_ascii_of_string s).
Arguments py s%_string.

Fixpoint str_eqb (a b : pystr) : bool :=
  match a, b with
  | [], [] => true
  | x :: a', y :: b' => (x =? y)%N && str_eqb a' b'
  | _, _ => false
  end.

Fixpoint startswith (sub s : pystr) : bool :=
  match sub, s with
  | [], _ => true
  | _ :: _, [] => false
  | x :: sub', y :: s' => (x =? y)%N && startswith sub' s'
  end.

(** [sub in s] *)
Fixpoint contains (sub s : pystr) : bool :=
  startswith sub s || match s with [] => false | _ :: t => contains sub t end.

Fixpoint find_at (sub s : pystr) (i : Z) : Z :=
  if startswith sub s then i
  else match s with [] => -1 | _ :: t => find_at sub t (i + 1) end.

(** [s.find(sub)] *)
Definition str_find (sub s : pystr) : Z := find_at sub s 0.

(** A slice bound as Python normalises it: a negative bound counts from the
    end, and the result is clamped to [0, len]. *)
Definition slice_bound (len i : Z) : Z :=
  if i <? 0 then Z.max 0 (i + len) else Z.min i len.

(** [s.find(sub, start)] *)
Definition str_find_from (sub s : pystr) (start : Z) : Z :=
  let len := Z.of_nat (length s) in
  let st := if start <? 0 then Z.max 0 (start + len) else start in
  if len <? st then -1 else find_at sub (skipn (Z.to_nat st) s) st.

(** [s[lo:hi]] *)
Definition str_slice (s : pystr) (lo hi : Z) : pystr :=
  let len := Z.of_nat (length s) in
  let lo' := slice_bound len lo in
  let hi' := slice_bound len hi in
  firstn (Z.to_nat (hi' - lo')) (skipn (Z.to_nat lo') s).

(** [s.split(c)] for a one-character separator: the first piece and the rest. *)
Fixpoint split_pieces (c : N) (s : pystr) : pystr * list pystr :=
  match s with
  | [] => ([], [])
  | x :: t =>
      let (h, r) := split_pieces c t in
      if (x =? c)%N then ([], h :: r) else (x :: h, r)
  end.

Definition str_split (c : N) (s : pystr) : list pystr :=
  let (h, r) := split_pieces c s in h :: r.

(** The code points on which [str.split()] without argument separates
    (those for which [str.isspace] holds). *)
Definition is_space (c : N) : bool :=
  ((9 <=? c) && (c <=? 13) || (28 <=? c) && (c <=? 32) ||
   (c =? 133) || (c =? 160) || (c =? 5760) ||
   (8192 <=? c) && (c <=? 8202) || (c =? 8232) || (c =? 8233) ||
   (c =? 8239) || (c =? 8287) || (c =? 12288))%N.

Definition cons_token (h : pystr) (r : list pystr) : list pystr :=
  match h with [] => r | _ :: _ => h :: r end.

Fixpoint ws_pieces (s : pystr) : pystr * list pystr :=
  match s with
  | [] => ([], [])
  | x :: t =>
      let (h, r) := ws_pieces t in
      if is_space x then ([], cons_token h r) else (x :: h, r)
  end.

(** [s.split()] *)
Definition str_split_ws (s : pystr) : list pystr :=
  let (h, r) := ws_pieces s in cons_token h r.

(** [sep.join(l)] *)
Fixpoint str_join (sep : pystr) (l : list pystr) : pystr :=
  match l with
  | [] => []
  | [x] => x
  | x :: t => x ++ sep ++ str_join sep t
  end.

(** [str(i)] for a non-negative integer *)
Definition str_of_nat (i : nat) : pystr :=
  py (NilEmpty.string_of_uint (Nat.to_uint i)).

Definition NL : N := 10%N.
Definition DOT : N := 46%N.
Definition SPACE : N := 32%N.
Definition TAB : N := 9%N.

(** ** Insertion-ordered dictionaries *)

Section Dict.
Context {K V : Type} (keq : K -> K -> bool).

Definition dict := list (K * V).

Fixpoint dict_get (d : dict) (k : K) : option V :=
  match d with
  | [] => None
  | (k', v) :: t => if keq k k' then Some v else dict_get t k
  end.

(** [d[k] = v]: an existing key keeps its position, a new one goes last. *)
Fixpoint dict_set (d : dict) (k : K) (v : V) : dict :=
  match d with
  | [] => [(k, v)]
  | (k', v') :: t =>
      if keq k k' then (k', v) :: t else (k', v') :: dict_set t k v
  end.

Definition dict_has (d : dict) (k : K) : bool :=
  match dict_get d k with Some _ => true | None => false end.

Definition dict_update (d : dict) (items : list (K * V)) : dict :=
  fold_left (fun acc kv => dict_set acc (fst kv) (snd kv)) items d.

(** [d1 | d2] *)
Definition dict_union (d1 d2 : dict) : dict := dict_update d1 d2.

Definition dict_keys (d : dict) : list K := map fst d.
Definition dict_values (d : dict) : list V := map snd d.
End Dict.

Arguments dict : clear implicits.

(** ** Sets

  A set is kept as the list of its elements in the order they were first
  added; what iteration yields is decided by a [SetOrder]. *)

Section SetOps.
Context {A : Type} (aeq : A -> A -> bool).

Definition set_add (x : A) (s : list A) : list A :=
  if existsb (aeq x) s then s else s ++ [x].

Definition set_of_list (l : list A) : list A :=
  fold_left (fun s x => set_add x s) l [].
End SetOps.

Record SetOrder (A : Type) := {
  iter_order : list A -> list A;
  iter_order_perm : forall l, NoDup l -> Permutation (iter_order l) l
}.
Arguments iter_order {A} _ _.
Arguments iter_order_perm {A} _ _ _.

(** One admissible order: elements come out as they went in. *)
Definition insertion_order (A : Type) : SetOrder A :=
  {| iter_order := fun l => l; iter_order_perm := fun l _ => Permutation_refl l |}.

(** Another one: elements come out in reverse. *)
Definition reverse_order (A : Type) : SetOrder A :=
  {| iter_order := @rev A;
     iter_order_perm := fun l _ => Permutation_sym (Permutation_rev l) |}.

(** ** The variable classifier *)

(** What a bucket holds for a name while the hint is scanned: the string
    ["felt"] or a set of field names. *)
Inductive set_shape :=
| SFelt
| SSet (fields : list pystr).

(** What it holds once the sets are turned into tuples; these are the keys
    of [structs_dict]. *)
Inductive shape :=
| Felt
| Tuple (fields : list pystr).

Definition fields_eqb (a b : list pystr) : bool :=
  (length a =? length b)%nat && forallb (fun p => str_eqb (fst p) (snd p)) (combine a b).

Definition shape_eqb (a b : shape) : bool :=
  match a, b with
  | Felt, Felt => true
  | Tuple x, Tuple y => fields_eqb x y
  | _, _ => false
  end.

Inductive direction := Inout | Input | Output.

Record buckets := {
  input_vars : dict pystr set_shape;
  output_vars : dict pystr set_shape;
  inout_vars : dict pystr set_shape
}.

Definition empty_buckets : buckets :=
  {| input_vars := []; output_vars := []; inout_vars := [] |}.

Definition bucket_of (b : buckets) (d : direction) : dict pystr set_shape :=
  match d with
  | Inout => inout_vars b
  | Input => input_vars b
  | Output => output_vars b
  end.

Definition with_bucket (b : buckets) (d : direction) (x : dict pystr set_shape) : buckets :=
  match d with
  | Inout => {| input_vars := input_vars b; output_vars := output_vars b; inout_vars := x |}
  | Input => {| input_vars := x; output_vars := output_vars b; inout_vars := inout_vars b |}
  | Output => {| input_vars := input_vars b; output_vars := x; inout_vars := inout_vars b |}
  end.

(** The characters [multi_replace] is called with: double quote, comma,
    closing parenthesis, closing bracket, closing brace, opening parenthesis. *)
Definition PATTERNS : pystr := [34; 44; 41; 93; 125; 40]%N.

Definition multi_replace (in_str patterns : pystr) : pystr :=
  map (fun c => if negb (existsb (N.eqb c) patterns) then c else SPACE) in_str.

Definition var_in_pack (line stripped_var : pystr) : bool :=
  if negb (contains (py "pack(") line) then false
  else
    let var := py "ids." ++ stripped_var in
    let pack_start := str_find (py "pack(") line in
    let pack_end := str_find_from (py ")") line pack_start in
    contains var (str_slice line pack_start pack_end).

(** The bucket chosen at lines 75 to 80. *)
Definition dict_to_insert (line var : pystr) : direction :=
  let eq := str_find (py "=") line in
  if (str_find var line <? eq) && (eq <? str_find_from var line eq) then Inout
  else if eq <? str_find var line then Input
  else Output.

(** The body of the inner loop, for one [var] of one [line]. *)
Definition classify_var (line : pystr) (b : buckets) (var : pystr) : option buckets :=
  let d := dict_to_insert line var in
  let var_field := tl (str_split DOT var) in
  match nth_error var_field 0 with
  | None => None
  | Some name =>
      if var_in_pack line name then
        Some (with_bucket b d (dict_set str_eqb (bucket_of b d) name (SSet [py "d0"; py "d1"; py "d2"])))
      else if (length var_field =? 1)%nat then
        Some (with_bucket b d (dict_set str_eqb (bucket_of b d) name SFelt))
      else
        match nth_error var_field 1 with
        | None => None
        | Some field =>
            match dict_get str_eqb (bucket_of b d) name with
            | Some (SSet s) =>
                Some (with_bucket b d (dict_set str_eqb (bucket_of b d) name (SSet (set_add str_eqb field s))))
            | _ =>
                Some (with_bucket b d (dict_set str_eqb (bucket_of b d) name (SSet [field])))
            end
        end
  end.

Fixpoint foldM {S A : Type} (f : S -> A -> option S) (l : list A) (s : S) : option S :=
  match l with
  | [] => Some s
  | x :: t => match f s x with Some s' => foldM f t s' | None => None end
  end.

Definition classify_line (b : buckets) (line : pystr) : option buckets :=
  let variables := filter (contains (py "ids.")) (str_split_ws line) in
  foldM (classify_var line) variables b.

(** The lines the outer loop runs over (line 65). *)
Definition hint_lines (hint_code : pystr) : list pystr :=
  map (fun line => multi_replace line PATTERNS)
      (filter (contains (py "ids.")) (str_split NL hint_code)).

(** The three buckets when both loops are done (line 94). *)
Definition scan (hint_code : pystr) : option buckets :=
  foldM classify_line (hint_lines hint_code) empty_buckets.

Section Classify.
Context (FO : SetOrder pystr).

(** [tuple(v) if v != "felt" else "felt"] *)
Definition freeze (v : set_shape) : shape :=
  match v with
  | SFelt => Felt
  | SSet s => Tuple (iter_order FO s)
  end.

(** Lines 95 to 97: every key is given its frozen value.  The keys of a
    dictionary are distinct, so each keeps its place and the generator reads
    every value before it is replaced. *)
Definition freeze_dict (d : dict pystr set_shape) : dict pystr shape :=
  map (fun kv => (fst kv, freeze (snd kv))) d.

Definition classify_variables (hint_code : pystr)
  : option (dict pystr shape * dict pystr shape * dict pystr shape) :=
  match scan hint_code with
  | None => None
  | Some b =>
      let input := freeze_dict (input_vars b) in
      let output := freeze_dict (output_vars b) in
      let inout := freeze_dict (inout_vars b) in
      Some (dict_union str_eqb input inout, output, inout)
  end.
End Classify.

(** ** The program assembler *)

Fixpoint mapM {A B : Type} (f : A -> option B) (l : list A) : option (list B) :=
  match l with
  | [] => Some []
  | x :: t =>
      match f x with
      | None => None
      | Some y => match mapM f t with None => None | Some r => Some (y :: r) end
      end
  end.

(** Iterating over a key of [structs_dict]: the elements of a tuple, the
    characters of the string ["felt"]. *)
Definition shape_iter (v : shape) : list pystr :=
  match v with
  | Felt => [py "f"; py "e"; py "l"; py "t"]
  | Tuple l => l
  end.

(** [structs_fmt] with [fields_fmt] joined in (lines 114 to 121). *)
Definition struct_decl (name : pystr) (fields : shape) : pystr :=
  py "struct " ++ name ++ py " {" ++ [NL] ++
  str_join [NL] (map (fun field_name => [TAB] ++ field_name ++ py ": felt,") (shape_iter fields)) ++
  [NL] ++ py "}".

Section Assemble.
Context (SO : SetOrder shape).

(** [fields], as [enumerate] walks it (lines 110 and 111). *)
Definition fields_of (input_vars output_vars : dict pystr shape) : list shape :=
  iter_order SO (set_of_list shape_eqb (dict_values (dict_union str_eqb input_vars output_vars))).

(** The comprehension of line 111 and the assignment of line 112. *)
Definition structs_dict_from (fields : list shape) : dict shape pystr :=
  let named :=
    map (fun iv => (snd iv, py "MyStruct" ++ str_of_nat (fst iv)))
        (filter (fun iv => negb (shape_eqb (snd iv) Felt))
                (combine (seq 0 (length fields)) fields)) in
  dict_set shape_eqb (dict_update shape_eqb [] named) Felt (py "felt").

Definition structs_dict_of (input_vars output_vars : dict pystr shape) : dict shape pystr :=
  structs_dict_from (fields_of input_vars output_vars).

Definition declared_structs_of (structs_dict : dict shape pystr) : pystr :=
  str_join [NL]
    (map (fun kv => struct_decl (snd kv) (fst kv))
         (filter (fun kv => negb (str_eqb (snd kv) (py "felt"))) structs_dict)).

(** One turn of the loop at lines 131 to 140. *)
Definition main_var_assignment (structs_dict : dict shape pystr)
    (acc : pystr) (item : pystr * shape) : option pystr :=
  let (name, var_fields) := item in
  match dict_get shape_eqb structs_dict var_fields with
  | None => None
  | Some struct_name =>
      if str_eqb struct_name (py "felt") then
        Some (acc ++ [NL; TAB] ++ py "let " ++ name ++ py " =;")
      else
        Some (acc ++ [NL; TAB] ++ py "let " ++ name ++ py " = " ++ struct_name ++ py "(" ++
              str_join (py ", ") (map (fun field_name => field_name ++ py "=") (shape_iter var_fields)) ++
              py ");")
  end.

Definition main_func_of (structs_dict : dict shape pystr) (input_vars : dict pystr shape)
  : option pystr :=
  match foldM (main_var_assignment structs_dict) input_vars [] with
  | None => None
  | Some main_var_assignments =>
      Some (py "func main() {" ++ main_var_assignments ++ [NL; TAB] ++
            py "hint_func(" ++ str_join (py ", ") (dict_keys input_vars) ++ py ");" ++
            [NL; TAB] ++ py "return();" ++ [NL] ++ py "}")
  end.

(** [hint_input_var_fmt] applied to one input variable. *)
Definition hint_input_var (structs_dict : dict shape pystr) (item : pystr * shape) : option pystr :=
  match dict_get shape_eqb structs_dict (snd item) with
  | None => None
  | Some struct_name => Some (fst item ++ py ": " ++ struct_name)
  end.

(** Lines 153 to 168. *)
Definition signature_of (structs_dict : dict shape pystr)
    (input_vars output_vars inout_vars : dict pystr shape) : option pystr :=
  let returned := dict_union str_eqb output_vars inout_vars in
  match mapM (hint_input_var structs_dict) input_vars with
  | None => None
  | Some params =>
      match mapM (dict_get shape_eqb structs_dict) (dict_values returned) with
      | None => None
      | Some types =>
          if (length returned =? 1)%nat then
            Some (py "(" ++ str_join (py ", ") params ++ py ") -> " ++ str_join [] types)
          else
            Some (py "(" ++ str_join (py ", ") params ++ py ") -> (" ++
                  str_join (py ", ") types ++ py ")")
      end
  end.

(** [local_declare_fmt] applied to one output variable. *)
Definition local_declare (structs_dict : dict shape pystr) (item : pystr * shape) : option pystr :=
  match dict_get shape_eqb structs_dict (snd item) with
  | None => None
  | Some res_struct => Some ([TAB] ++ py "local " ++ fst item ++ py ": " ++ res_struct ++ py ";")
  end.

(** [hint_func_fmt] filled in. *)
Definition hint_func_text (signature local_declarations hint output_return : pystr) : pystr :=
  py "func hint_func" ++ signature ++ py " {" ++ [NL; TAB] ++ py "alloc_locals;" ++ [NL] ++
  local_declarations ++ [NL] ++ py "%{" ++ [NL] ++ hint ++ [NL] ++ py "%}" ++ [NL; TAB] ++
  py "return(" ++ output_return ++ py ");" ++ [NL] ++ py "}".

Definition hint_func_of (structs_dict : dict shape pystr) (hint_code : pystr)
    (input_vars output_vars inout_vars : dict pystr shape) : option pystr :=
  match signature_of structs_dict input_vars output_vars inout_vars with
  | None => None
  | Some signature =>
      match mapM (local_declare structs_dict) output_vars with
      | None => None
      | Some locals =>
          Some (hint_func_text signature (str_join [NL] locals) hint_code
                  (str_join (py ", ") (dict_keys (dict_union str_eqb output_vars inout_vars))))
      end
  end.

(** The assembly proper (lines 110 to 181), from the three mappings. *)
Definition assemble (hint_code : pystr)
    (input_vars output_vars inout_vars : dict pystr shape) : option (list pystr) :=
  let structs_dict := structs_dict_of input_vars output_vars in
  let declared_structs := declared_structs_of structs_dict in
  match main_func_of structs_dict input_vars with
  | None => None
  | Some main_func =>
      match hint_func_of structs_dict hint_code input_vars output_vars inout_vars with
      | None => None
      | Some hint_func =>
          Some (str_split NL declared_structs ++ str_split NL main_func ++ str_split NL hint_func)
      end
  end.

Context (FO : SetOrder pystr).

Definition generate_cairo_hint_program (hint_code : pystr) : option (list pystr) :=
  match classify_variables FO hint_code with
  | None => None
  | Some (input_vars, output_vars, inout_vars) =>
      assemble hint_code input_vars output_vars inout_vars
  end.
End Assemble.

(** ** The hints the scenarios are about *)

Definition hint_sum : pystr := py "ids.a = ids.b.x + ids.b.y".
Definition hint_two_packs : pystr := py "pack(ids.p, PRIME)" ++ [NL] ++ py "pack(ids.q, PRIME)".
Definition hint_pack_arg : pystr := py "ids.r = pack(ids.p, PRIME)".
Definition hint_bare_repeat : pystr := py "x = ids.b.f" ++ [NL] ++ py "y = ids.b".
Definition hint_shadowed : pystr := py "ids.a.y = ids.a.y + 1" ++ [NL] ++ py "ids.a.x = 5".
Definition hint_no_ids : pystr := py "x = 1".
Definition hint_inputs_only : pystr := py "y = ids.c.z + ids.d".

Definition hint_output_only : pystr :=
  py "ids.a = ids.b + ids.c.x" ++ [NL] ++ py "ids.c.x = ids.c.x + 1".

(** The program expected for [hint_sum], the struct's name and the order of
    its two fields being left open. *)
Definition sum_program (struct_name f1 f2 : pystr) : list pystr :=
  [ py "struct " ++ struct_name ++ py " {";
    [TAB] ++ f1 ++ py ": felt,";
    [TAB] ++ f2 ++ py ": felt,";
    py "}";
    py "func main() {";
    [TAB] ++ py "let b = " ++ struct_name ++ py "(" ++ f1 ++ py "=, " ++ f2 ++ py "=);";
    [TAB] ++ py "hint_func(b);";
    [TAB] ++ py "return();";
    py "}";
    py "func hint_func(b: " ++ struct_name ++ py ") -> felt {";
    [TAB] ++ py "alloc_locals;";
    [TAB] ++ py "local a: felt;";
    py "%{";
    hint_sum;
    py "%}";
    [TAB] ++ py "return(a);";
    py "}" ].

(** ** Predicates used in the statements *)

(** Every name in every bucket satisfies [P]. *)
Definition names_all (P : pystr -> Prop) (b : buckets) : Prop :=
  forall d, Forall P (dict_keys (bucket_of b d)).

(** A text that holds no line break. *)
Definition nlfree (s : pystr) : Prop := ~ In NL s.

(** ** Notions used by the further properties *)

Definition EQ : N := 61%N.

(** A character that a name or a field can hold: no white space, no dot and
    none of the characters [multi_replace] blanks at line 65. *)
Definition name_char (c : N) : bool :=
  negb (is_space c) && negb (c =? DOT)%N && negb (existsb (N.eqb c) PATTERNS).

Definition sanitized (s : pystr) : Prop := forallb name_char s = true.

(** What a bucket may hold for a name while the hint is scanned: the scalar,
    or a set of sanitized fields that is not empty and has no repeats. *)
Definition set_shape_ok (v : set_shape) : Prop :=
  match v with
  | SFelt => True
  | SSet s => s <> [] /\ NoDup s /\ Forall sanitized s
  end.

Definition shape_ok (v : shape) : Prop :=
  match v with
  | Felt => True
  | Tuple s => s <> [] /\ NoDup s /\ Forall sanitized s
  end.

(** The line one turn of the loop at lines 131 to 140 adds to [main]
    ([main_var_felt_assingment_fmt] or [main_struct_assignment_fmt] without
    the line break they start with). *)
Definition let_line (structs_dict : dict shape pystr) (item : pystr * shape) : option pystr :=
  match dict_get shape_eqb structs_dict (snd item) with
  | None => None
  | Some struct_name =>
      if str_eqb struct_name (py "felt") then
        Some ([TAB] ++ py "let " ++ fst item ++ py " =;")
      else
        Some ([TAB] ++ py "let " ++ fst item ++ py " = " ++ struct_name ++ py "(" ++
              str_join (py ", ") (map (fun field_name => field_name ++ py "=") (shape_iter (snd item))) ++
              py ");")
  end.

(** A token of a cleaned line: no white space and none of the blanked
    characters. *)
Definition token_ok (var : pystr) : Prop :=
  forall c, In c var -> is_space c = false /\ existsb (N.eqb c) PATTERNS = false.

(** The state the two loops keep: in each bucket the names are distinct and
    sanitized, and every value is well formed. *)
Definition buckets_ok (b : buckets) : Prop :=
  forall d,
    NoDup (dict_keys (bucket_of b d)) /\
    Forall sanitized (dict_keys (bucket_of b d)) /\
    Forall set_shape_ok (dict_values (bucket_of b d)).

(** ** Notions used by the statements about names and type names *)

Definition hint_read_then_written : pystr := py "x = ids.a" ++ [NL] ++ py "ids.a = 1".

(** The name [name] has a qualified occurrence that the direction test of
    its line sends to the bucket [d]: a token holding [ids.] on a line
    holding [ids.], with [name] the piece after its first dot
    ([var.split(".")[1]]). *)
Definition occurs_as (hint_code name : pystr) (d : direction) : Prop :=
  exists raw var,
    In raw (str_split NL hint_code) /\
    contains (py "ids.") raw = true /\
    In var (str_split_ws (multi_replace raw PATTERNS)) /\
    contains (py "ids.") var = true /\
    nth_error (str_split DOT var) 1 = Some name /\
    dict_to_insert (multi_replace raw PATTERNS) var = d.

(** The line of [main] for the variable [name] of shape [var_fields] whose
    type name is [type_name] ([main_var_felt_assingment_fmt] or
    [main_struct_assignment_fmt], without the line break they start with). *)
Definition let_text (name type_name : pystr) (var_fields : shape) : pystr :=
  if str_eqb type_name (py "felt") then
    [TAB] ++ py "let " ++ name ++ py " =;"
  else
    [TAB] ++ py "let " ++ name ++ py " = " ++ type_name ++ py "(" ++
    str_join (py ", ") (map (fun field_name => field_name ++ py "=") (shape_iter var_fields)) ++
    py ");".

(** [hint_input_var_fmt] for the variable [name] of type name [type_name]. *)
Definition param_text (name type_name : pystr) : pystr :=
  name ++ py ": " ++ type_name.

(** The return type lines 153 to 168 write for the type names [types] of the
    returned variables. *)
Definition return_type_text (types : list pystr) : pystr :=
  if (length types =? 1)%nat then str_join [] types
  else py "(" ++ str_join (py ", ") types ++ py ")".

(** * Properties *)

(** ** Equality tests *)

Lemma str_eqb_eq (a b : pystr) : str_eqb a b = true <-> a = b.
Proof.
  revert b; induction a as [|x a IH]; intros [|y b]; simpl; split; intro H;
    try reflexivity; try discriminate.
  - apply andb_true_iff in H as [Hx Hab]. apply N.eqb_eq in Hx.
    apply IH in Hab. congruence.
  - injection H as -> ->. rewrite N.eqb_refl. simpl. now apply IH.
Qed.

Lemma str_eqb_refl (a : pystr) : str_eqb a a = true.
Proof. now apply str_eqb_eq. Qed.

Lemma str_eqb_neq (a b : pystr) : str_eqb a b = false <-> a <> b.
Proof.
  split.
  - intros H E. apply str_eqb_eq in E. congruence.
  - intro H. destruct (str_eqb a b) eqn:E; [|reflexivity].
    apply str_eqb_eq in E. contradiction.
Qed.

Lemma fields_eqb_eq (a b : list pystr) : fields_eqb a b = true <-> a = b.
Proof.
  unfold fields_eqb. revert b; induction a as [|x a IH]; intros [|y b]; simpl; split; intro H;
    try reflexivity; try discriminate.
  - apply andb_true_iff in H as [Hl H]. apply andb_true_iff in H as [Hx Hab].
    apply str_eqb_eq in Hx. subst y. f_equal. apply IH.
    now rewrite Hl, Hab.
  - injection H as -> ->. pose proof (proj2 (IH b) eq_refl) as H.
    apply andb_true_iff in H as [Hl Hab]. simpl in Hl |- *.
    now rewrite Hl, str_eqb_refl, Hab.
Qed.

Lemma shape_eqb_eq (a b : shape) : shape_eqb a b = true <-> a = b.
Proof.
  destruct a as [|x], b as [|y]; simpl; split; intro H;
    try reflexivity; try discriminate.
  - apply fields_eqb_eq in H. now subst.
  - injection H as ->. now apply fields_eqb_eq.
Qed.

(** ** Searching and splitting *)

Lemma startswith_app (sub s : pystr) :
  startswith sub s = true <-> exists r, s = sub ++ r.
Proof.
  revert s; induction sub as [|x sub IH]; intros s; simpl.
  - split; [intros _; now exists s | reflexivity].
  - destruct s as [|y s]; split.
    + discriminate.
    + intros [r Hr]. discriminate.
    + intro H. apply andb_true_iff in H as [Hx Hs]. apply N.eqb_eq in Hx.
      apply IH in Hs as [r ->]. exists r. now subst.
    + intros [r Hr]. injection Hr as -> ->. rewrite N.eqb_refl. simpl.
      apply IH. now exists r.
Qed.

Lemma contains_app (sub s : pystr) :
  contains sub s = true <-> exists l r, s = l ++ sub ++ r.
Proof.
  induction s as [|y s IH]; simpl.
  - rewrite orb_false_r, startswith_app. split.
    + intros [r Hr]. now exists [], r.
    + intros [l [r H]]. destruct l; [now exists r|discriminate].
  - rewrite orb_true_iff, startswith_app, IH. split.
    + intros [[r Hr]|[l [r Hr]]].
      * now exists [], r.
      * exists (y :: l), r. now rewrite Hr.
    + intros [[|z l] [r Hr]].
      * left. now exists r.
      * right. injection Hr as -> ->. now exists l, r.
Qed.

Lemma contains_In (sub s : pystr) (c : N) :
  contains sub s = true -> In c sub -> In c s.
Proof.
  intros H Hc. apply contains_app in H as [l [r ->]].
  apply in_or_app. right. apply in_or_app. now left.
Qed.

Lemma str_split_cons (c x : N) (t : pystr) :
  str_split c (x :: t) =
  if (x =? c)%N then [] :: str_split c t
  else match str_split c t with h :: r => (x :: h) :: r | [] => [[x]] end.
Proof.
  unfold str_split. simpl. destruct (split_pieces c t) as [h r].
  now destruct (x =? c)%N.
Qed.

Lemma str_split_not_nil (c : N) (s : pystr) : str_split c s <> [].
Proof. unfold str_split. now destruct (split_pieces c s). Qed.

Lemma str_split_app (c : N) (a b : pystr) :
  str_split c (a ++ c :: b) = str_split c a ++ str_split c b.
Proof.
  induction a as [|x a IH].
  - simpl app. rewrite str_split_cons, N.eqb_refl. reflexivity.
  - rewrite <- app_comm_cons, !str_split_cons, IH.
    destruct (x =? c)%N; [reflexivity|].
    destruct (str_split c a) as [|h r] eqn:E; [|reflexivity].
    now apply str_split_not_nil in E.
Qed.

Lemma str_split_free (c : N) (s : pystr) : ~ In c s -> str_split c s = [s].
Proof.
  induction s as [|x s IH]; intro H; [reflexivity|].
  rewrite str_split_cons.
  destruct (x =? c)%N eqn:E.
  - apply N.eqb_eq in E. subst. exfalso. apply H. now left.
  - rewrite IH; [reflexivity|]. intro Hc. apply H. now right.
Qed.

Lemma str_split_pieces_free (c : N) (s : pystr) :
  Forall (fun p => ~ In c p) (str_split c s).
Proof.
  induction s as [|x s IH].
  - repeat constructor. intros [].
  - rewrite str_split_cons. destruct (x =? c)%N eqn:E.
    + constructor; [intros []|exact IH].
    + destruct (str_split c s) as [|h r]; inversion IH; subst.
      * repeat constructor. intros [->|[]]. now rewrite N.eqb_refl in E.
      * constructor; [|assumption]. intros [->|Hc]; [|contradiction].
        now rewrite N.eqb_refl in E.
Qed.

Lemma str_split_pieces_Forall (P : N -> Prop) (c : N) (s : pystr) :
  Forall P s -> Forall (Forall P) (str_split c s).
Proof.
  induction 1 as [|x s Hx Hs IH].
  - repeat constructor.
  - rewrite str_split_cons. destruct (x =? c)%N.
    + constructor; [constructor|exact IH].
    + destruct (str_split c s) as [|h r]; inversion IH; subst;
        repeat constructor; assumption.
Qed.

Lemma str_split_piece_inside (c : N) (s p : pystr) :
  In p (str_split c s) -> exists l r, s = l ++ p ++ r.
Proof.
  revert p; induction s as [|x s IH]; intros p.
  - intros [<-|[]]. now exists [], [].
  - rewrite str_split_cons. destruct (x =? c)%N.
    + intros [<-|H].
      * now exists [], (x :: s).
      * apply IH in H as [l [r ->]]. now exists (x :: l), r.
    + destruct (str_split c s) as [|h t] eqn:E.
      * now apply str_split_not_nil in E.
      * intros [<-|H].
        -- destruct (IH h (or_introl eq_refl)) as [l [r Hs]].
           assert (Hh : exists r', s = h ++ r').
           { clear - E. unfold str_split in E.
             revert h t E. induction s as [|y s IH]; simpl; intros h t E.
             - injection E as <- <-. now exists [].
             - destruct (split_pieces c s) as [h' r'].
               destruct (y =? c)%N; injection E as <- <-.
               + now exists (y :: s).
               + destruct (IH h' r' eq_refl) as [r'' ->]. now exists r''. }
           destruct Hh as [r' ->]. now exists [], r'.
        -- destruct (IH p (or_intror H)) as [l [r ->]]. now exists (x :: l), r.
Qed.

(** ** Dictionaries *)

Section DictFacts.
Context {K V : Type} (keq : K -> K -> bool).
Hypothesis keq_eq : forall a b, keq a b = true <-> a = b.

Lemma keq_refl (k : K) : keq k k = true.
Proof. now apply keq_eq. Qed.

Lemma dict_get_set (d : dict K V) (k k' : K) (v : V) :
  dict_get keq (dict_set keq d k v) k' = if keq k' k then Some v else dict_get keq d k'.
Proof.
  induction d as [|[k1 v1] t IH]; simpl.
  - reflexivity.
  - destruct (keq k k1) eqn:E1; simpl.
    + apply keq_eq in E1. subst k1. now destruct (keq k' k).
    + rewrite IH. destruct (keq k' k1) eqn:E2, (keq k' k) eqn:E3; try reflexivity.
      apply keq_eq in E2, E3. subst. now rewrite keq_refl in E1.
Qed.

Lemma dict_has_set (d : dict K V) (k k' : K) (v : V) :
  dict_has keq (dict_set keq d k v) k' = keq k' k || dict_has keq d k'.
Proof. unfold dict_has. rewrite dict_get_set. now destruct (keq k' k). Qed.

Lemma dict_has_keys (d : dict K V) (k : K) :
  dict_has keq d k = existsb (keq k) (dict_keys d).
Proof.
  unfold dict_has. induction d as [|[k1 v1] t IH]; simpl; [reflexivity|].
  now destruct (keq k k1).
Qed.

Lemma dict_has_update (items d : dict K V) (k : K) :
  dict_has keq (dict_update keq d items) k = dict_has keq d k || dict_has keq items k.
Proof.
  unfold dict_update. revert d; induction items as [|[k1 v1] t IH]; intros d; simpl.
  - now rewrite orb_false_r.
  - rewrite IH, dict_has_set. simpl. unfold dict_has at 4. simpl.
    destruct (keq k k1); simpl; [now rewrite orb_true_r|reflexivity].
Qed.

Lemma dict_get_In (d : dict K V) (k : K) (v : V) :
  dict_get keq d k = Some v -> In (k, v) d.
Proof.
  induction d as [|[k1 v1] t IH]; simpl; [discriminate|].
  destruct (keq k k1) eqn:E.
  - apply keq_eq in E. intros [= ->]. left. now subst.
  - intro H. right. now apply IH.
Qed.

Lemma dict_has_In (d : dict K V) (k : K) :
  dict_has keq d k = true <-> In k (dict_keys d).
Proof.
  rewrite dict_has_keys, existsb_exists. split.
  - intros [x [Hx E]]. apply keq_eq in E. now subst.
  - intro H. exists k. split; [assumption|apply keq_refl].
Qed.

Lemma dict_set_keys_incl (d : dict K V) (k : K) (v : V) :
  incl (dict_keys (dict_set keq d k v)) (k :: dict_keys d).
Proof.
  induction d as [|[k1 v1] t IH]; simpl.
  - apply incl_refl.
  - destruct (keq k k1); simpl.
    + apply incl_tl, incl_refl.
    + intros x [<-|Hx]; [right; now left|].
      apply IH in Hx as [<-|Hx]; [now left|right; now right].
Qed.

Lemma dict_set_values_incl (d : dict K V) (k : K) (v : V) :
  incl (dict_values (dict_set keq d k v)) (v :: dict_values d).
Proof.
  induction d as [|[k1 v1] t IH]; simpl.
  - apply incl_refl.
  - destruct (keq k k1); simpl.
    + intros x [<-|Hx]; [now left|right; now right].
    + intros x [<-|Hx]; [right; now left|].
      apply IH in Hx as [<-|Hx]; [now left|right; now right].
Qed.

Lemma dict_update_keys_incl (items d : dict K V) :
  incl (dict_keys (dict_update keq d items)) (dict_keys d ++ dict_keys items).
Proof.
  unfold dict_update. revert d; induction items as [|[k1 v1] t IH]; intros d; simpl.
  - rewrite app_nil_r. apply incl_refl.
  - intros x Hx. apply IH in Hx. apply in_app_or in Hx as [Hx|Hx].
    + apply dict_set_keys_incl in Hx as [<-|Hx].
      * apply in_or_app. right. now left.
      * apply in_or_app. now left.
    + apply in_or_app. right. now right.
Qed.

Lemma dict_update_values_incl (items d : dict K V) :
  incl (dict_values (dict_update keq d items)) (dict_values d ++ dict_values items).
Proof.
  unfold dict_update. revert d; induction items as [|[k1 v1] t IH]; intros d; simpl.
  - rewrite app_nil_r. apply incl_refl.
  - intros x Hx. apply IH in Hx. apply in_app_or in Hx as [Hx|Hx].
    + apply dict_set_values_incl in Hx as [<-|Hx].
      * apply in_or_app. right. now left.
      * apply in_or_app. now left.
    + apply in_or_app. right. now right.
Qed.
End DictFacts.

Lemma dict_has_freeze (FO : SetOrder pystr) (d : dict pystr set_shape) (k : pystr) :
  dict_has str_eqb (freeze_dict FO d) k = dict_has str_eqb d k.
Proof.
  unfold dict_has. induction d as [|[k1 v1] t IH]; simpl; [reflexivity|].
  now destruct (str_eqb k k1).
Qed.

Lemma dict_keys_freeze (FO : SetOrder pystr) (d : dict pystr set_shape) :
  dict_keys (freeze_dict FO d) = dict_keys d.
Proof. unfold dict_keys, freeze_dict. rewrite map_map. reflexivity. Qed.

(** The merged Input mapping holds the names of Input and those of Inout. *)
Lemma merged_input_names (FO : SetOrder pystr) (hint : pystr) (b : buckets)
    (i o io : dict pystr shape) (name : pystr) :
  scan hint = Some b ->
  classify_variables FO hint = Some (i, o, io) ->
  dict_has str_eqb i name
  = dict_has str_eqb (input_vars b) name || dict_has str_eqb io name /\
  dict_has str_eqb o name = dict_has str_eqb (output_vars b) name /\
  dict_has str_eqb io name = dict_has str_eqb (inout_vars b) name.
Proof.
  intros Hs Hc. unfold classify_variables in Hc. rewrite Hs in Hc.
  injection Hc as <- <- <-. unfold dict_union.
  rewrite (dict_has_update str_eqb str_eqb_eq), !dict_has_freeze. auto.
Qed.

(** ** Iteration orders *)

Lemma iter_order_In {A : Type} (O : SetOrder A) (l : list A) (x : A) :
  NoDup l -> (In x (iter_order O l) <-> In x l).
Proof.
  intro H. pose proof (iter_order_perm O l H) as P. split.
  - apply Permutation_in. exact P.
  - apply Permutation_in. now apply Permutation_sym.
Qed.

Lemma iter_order_1 {A : Type} (O : SetOrder A) (a : A) : iter_order O [a] = [a].
Proof.
  apply Permutation_length_1_inv, Permutation_sym, iter_order_perm.
  repeat constructor. intros [].
Qed.

Lemma iter_order_2 {A : Type} (O : SetOrder A) (a b : A) :
  a <> b -> iter_order O [a; b] = [a; b] \/ iter_order O [a; b] = [b; a].
Proof.
  intro H. apply Permutation_length_2_inv, Permutation_sym, iter_order_perm.
  repeat constructor; simpl; intuition congruence.
Qed.

(** ** The pack call is never recognised *)

Lemma multi_replace_removes (line : pystr) (c : N) :
  In c PATTERNS -> ~ In c (multi_replace line PATTERNS).
Proof.
  intros Hc H. unfold multi_replace in H. apply in_map_iff in H as [x [Hx _]].
  destruct (existsb (N.eqb x) PATTERNS) eqn:E; simpl in Hx.
  - subst c. simpl in Hc. unfold SPACE in Hc. intuition discriminate.
  - subst x. apply Bool.not_true_iff_false in E. apply E.
    apply existsb_exists. exists c. split; [assumption|apply N.eqb_refl].
Qed.

Lemma var_in_pack_hint_line (line stripped_var : pystr) :
  var_in_pack (multi_replace line PATTERNS) stripped_var = false.
Proof.
  unfold var_in_pack.
  destruct (contains (py "pack(") (multi_replace line PATTERNS)) eqn:E; [|reflexivity].
  exfalso. apply (multi_replace_removes line 40%N).
  - simpl. tauto.
  - apply (contains_In _ _ _ E). simpl. tauto.
Qed.

Ltac run_scan h :=
  let r := eval vm_compute in (scan h) in
  let E := fresh "Escan" in
  assert (E : scan h = r) by (vm_compute; reflexivity);
  unfold classify_variables; rewrite E; clear E.

(** C1 (the code departs from the claim).  A variable passed to the pack
    call should get the shape d0, d1, d2.  On the hint
    [ids.r = pack(ids.p, PRIME)], [var_in_pack] recognises [p] in the line as
    written, but the loop hands it the line with the parentheses blanked:
    there it answers no, and [p] is left a scalar input. *)
Theorem C1_pack_argument_left_scalar (FO : SetOrder pystr) :
  var_in_pack hint_pack_arg (py "p") = true /\
  var_in_pack (multi_replace hint_pack_arg PATTERNS) (py "p") = false /\
  classify_variables FO hint_pack_arg
  = Some ([(py "p", Felt)], [(py "r", Felt)], []).
Proof.
  split; [vm_compute; reflexivity|].
  split; [apply var_in_pack_hint_line|].
  run_scan hint_pack_arg. reflexivity.
Qed.

(** ** Lines without an equals sign *)

Lemma find_at_contains (sub s : pystr) (i : Z) :
  contains sub s = true -> i <= find_at sub s i.
Proof.
  revert i; induction s as [|x s IH]; intros i; simpl.
  - rewrite orb_false_r. intros ->. lia.
  - destruct (startswith sub (x :: s)); simpl; [lia|].
    intro H. specialize (IH (i + 1) H). lia.
Qed.

Lemma find_at_absent (sub s : pystr) (i : Z) :
  contains sub s = false -> find_at sub s i = -1.
Proof.
  revert i; induction s as [|x s IH]; intros i; simpl.
  - rewrite orb_false_r. now intros ->.
  - destruct (startswith sub (x :: s)); simpl; [discriminate|]. apply IH.
Qed.

Lemma ws_pieces_inside (s : pystr) :
  (exists r, s = fst (ws_pieces s) ++ r) /\
  forall t, In t (snd (ws_pieces s)) -> exists l r, s = l ++ t ++ r.
Proof.
  induction s as [|x s [[r0 IHh] IHr]]; simpl.
  - split; [now exists []|intros t []].
  - destruct (ws_pieces s) as [h r]. simpl in *.
    destruct (is_space x); simpl; split.
    + now exists (x :: s).
    + intros t Ht.
      assert (Hc : t = h \/ In t r).
      { destruct h; simpl in Ht; [now right|]. destruct Ht as [<-|Ht]; auto. }
      destruct Hc as [->|Hc].
      * exists [x], r0. simpl. now rewrite <- IHh.
      * destruct (IHr t Hc) as (l & r' & ->). now exists (x :: l), r'.
    + exists r0. now rewrite IHh at 1.
    + intros t Ht. destruct (IHr t Ht) as (l & r' & ->). now exists (x :: l), r'.
Qed.

Lemma str_split_ws_contains (s t : pystr) :
  In t (str_split_ws s) -> contains t s = true.
Proof.
  unfold str_split_ws. pose proof (ws_pieces_inside s) as [[r0 Hh] Hr].
  destruct (ws_pieces s) as [h r]. simpl in *. intro Ht. apply contains_app.
  assert (Hc : t = h \/ In t r).
  { destruct h; simpl in Ht; [now right|]. destruct Ht as [<-|Ht]; auto. }
  destruct Hc as [->|Hc]; [now exists [], r0|now apply Hr].
Qed.

(** X3.  On a line without an equals sign every token is sent to the Input
    mapping: the search for the sign gives -1, which is below the offset of
    the token. *)
Lemma no_equals_is_input (line var : pystr) :
  contains (py "=") line = false ->
  In var (str_split_ws line) ->
  dict_to_insert line var = Input.
Proof.
  intros He Hv. apply str_split_ws_contains in Hv.
  unfold dict_to_insert, str_find. rewrite (find_at_absent _ _ 0 He).
  pose proof (find_at_contains var line 0 Hv) as Hp.
  destruct (find_at var line 0 <? -1) eqn:E1; [apply Z.ltb_lt in E1; lia|].
  simpl. destruct (-1 <? find_at var line 0) eqn:E2; [reflexivity|].
  apply Z.ltb_ge in E2. lia.
Qed.

(** ** A bare occurrence writes the scalar *)

(** A token with exactly one dot, on a line of the loop, sets its name to
    ["felt"] in the chosen bucket, whatever the bucket held for it. *)
Lemma bare_occurrence_sets_felt (raw : pystr) (b : buckets) (var prefix name : pystr) :
  str_split DOT var = [prefix; name] ->
  exists b',
    classify_var (multi_replace raw PATTERNS) b var = Some b' /\
    dict_get str_eqb (bucket_of b' (dict_to_insert (multi_replace raw PATTERNS) var)) name
    = Some SFelt.
Proof.
  intro E. unfold classify_var. rewrite E. simpl.
  rewrite var_in_pack_hint_line. eexists. split; [reflexivity|].
  set (d := dict_to_insert _ var).
  assert (H : forall x, bucket_of (with_bucket b d x) d = x) by (intro x; now destruct d).
  rewrite H, (dict_get_set str_eqb str_eqb_eq), str_eqb_refl. reflexivity.
Qed.

(** C2, as stated, fails: on the two pack lines without an equals sign no
    iteration order puts [p] or [q] in the Output mapping. *)
Lemma C2_counterexample :
  ~ (exists (FO : SetOrder pystr) i o io,
        classify_variables FO hint_two_packs = Some (i, o, io) /\
        (dict_has str_eqb o (py "p") = true \/ dict_has str_eqb o (py "q") = true)).
Proof.
  intros (FO & i & o & io & H & Ho). revert H.
  run_scan hint_two_packs. simpl. intro H. injection H as <- <- <-.
  destruct Ho as [Ho|Ho]; discriminate Ho.
Qed.

(** C2 (amended).  On the two lines [pack(ids.p, PRIME)] and
    [pack(ids.q, PRIME)], neither with an equals sign, both [p] and [q] are
    placed in the Input mapping, in this order, and the Output and Inout
    mappings are empty. *)
Theorem C2_no_equals_selects_input (FO : SetOrder pystr) :
  exists i, classify_variables FO hint_two_packs = Some (i, [], []) /\
            dict_keys i = [py "p"; py "q"].
Proof.
  run_scan hint_two_packs. eexists. split; reflexivity.
Qed.

(** C3 (the code departs from the claim).  A bare repeat should keep the
    field set a name already has in its bucket.  After [x = ids.b.f] the
    Input mapping holds the field set of [f] for [b]; the following line
    [y = ids.b] overwrites it with the scalar. *)
Theorem C3_bare_repeat_downgrades (FO : SetOrder pystr) :
  scan (py "x = ids.b.f")
  = Some {| input_vars := [(py "b", SSet [py "f"])]; output_vars := []; inout_vars := [] |} /\
  classify_variables FO hint_bare_repeat = Some ([(py "b", Felt)], [], []).
Proof.
  split; [vm_compute; reflexivity|].
  run_scan hint_bare_repeat. reflexivity.
Qed.

(** C9 (the code departs from the claim).  The hint
    [ids.a.y = ids.a.y + 1], [ids.a.x = 5] is classified without error, with
    [a] both an input of shape y and an output of shape x; only the output
    shape receives a type name, and looking up the input shape in
    [structs_dict] fails (a KeyError). *)
Theorem C9_shadowed_shape_key_error (SO : SetOrder shape) (FO : SetOrder pystr) :
  classify_variables FO hint_shadowed
  = Some ([(py "a", Tuple [py "y"])], [(py "a", Tuple [py "x"])], [(py "a", Tuple [py "y"])]) /\
  generate_cairo_hint_program SO FO hint_shadowed = None.
Proof.
  assert (H : classify_variables FO hint_shadowed
    = Some ([(py "a", Tuple [py "y"])], [(py "a", Tuple [py "x"])], [(py "a", Tuple [py "y"])])).
  { run_scan hint_shadowed. cbn [freeze_dict map fst snd freeze input_vars output_vars inout_vars].
    rewrite !iter_order_1. reflexivity. }
  split; [exact H|].
  unfold generate_cairo_hint_program. rewrite H.
  unfold assemble, structs_dict_of, fields_of.
  match goal with |- context [iter_order SO ?l] =>
    let r := eval vm_compute in l in change l with r end.
  rewrite iter_order_1. vm_compute. reflexivity.
Qed.

(** ** The scenario of a sum of two fields *)

Lemma assemble_sum (SO : SetOrder shape) (f1 f2 : pystr) :
  (f1 = py "x" /\ f2 = py "y") \/ (f1 = py "y" /\ f2 = py "x") ->
  exists struct_name,
    (struct_name = py "MyStruct0" \/ struct_name = py "MyStruct1") /\
    assemble SO hint_sum [(py "b", Tuple [f1; f2])] [(py "a", Felt)] []
    = Some (sum_program struct_name f1 f2).
Proof.
  intros Hf. unfold assemble, structs_dict_of, fields_of.
  assert (E : set_of_list shape_eqb
                (dict_values (dict_union str_eqb [(py "b", Tuple [f1; f2])] [(py "a", Felt)]))
              = [Tuple [f1; f2]; Felt]).
  { destruct Hf as [[-> ->]|[-> ->]]; vm_compute; reflexivity. }
  rewrite E. clear E.
  destruct (iter_order_2 SO (Tuple [f1; f2]) Felt ltac:(discriminate)) as [E|E]; rewrite E.
  - exists (py "MyStruct0"). split; [now left|].
    destruct Hf as [[-> ->]|[-> ->]]; vm_compute; reflexivity.
  - exists (py "MyStruct1"). split; [now right|].
    destruct Hf as [[-> ->]|[-> ->]]; vm_compute; reflexivity.
Qed.

(** C4.  For the hint [ids.a = ids.b.x + ids.b.y], [b] is an input whose
    shape has the fields x and y, [a] is a scalar output, and the program is:
    one struct declaration with these two fields, a [main] that builds [b]
    with that struct and calls [hint_func(b)], and a [hint_func] with the
    parameter [b] of that struct, the local [a] of type felt, and
    [return(a)].  The order of the two fields and the number in the struct's
    name (0 or 1) are those of the set iterations. *)
Theorem C4_sum_scenario (SO : SetOrder shape) (FO : SetOrder pystr) :
  exists struct_name f1 f2,
    (struct_name = py "MyStruct0" \/ struct_name = py "MyStruct1") /\
    ((f1 = py "x" /\ f2 = py "y") \/ (f1 = py "y" /\ f2 = py "x")) /\
    classify_variables FO hint_sum
    = Some ([(py "b", Tuple [f1; f2])], [(py "a", Felt)], []) /\
    generate_cairo_hint_program SO FO hint_sum = Some (sum_program struct_name f1 f2).
Proof.
  assert (H : exists f1 f2,
    ((f1 = py "x" /\ f2 = py "y") \/ (f1 = py "y" /\ f2 = py "x")) /\
    classify_variables FO hint_sum
    = Some ([(py "b", Tuple [f1; f2])], [(py "a", Felt)], [])).
  { run_scan hint_sum.
    cbn [freeze_dict map fst snd freeze input_vars output_vars inout_vars].
    destruct (iter_order_2 FO (py "x") (py "y") ltac:(discriminate)) as [E|E].
    - exists (py "x"), (py "y"). split; [now left|].
      change [[120%N]; [121%N]] with [py "x"; py "y"]. rewrite E. reflexivity.
    - exists (py "y"), (py "x"). split; [now right|].
      change [[120%N]; [121%N]] with [py "x"; py "y"]. rewrite E. reflexivity. }
  destruct H as (f1 & f2 & Hf & Hc).
  destruct (assemble_sum SO f1 f2 Hf) as (struct_name & Hs & Ha).
  exists struct_name, f1, f2. repeat split; try assumption.
  unfold generate_cairo_hint_program. rewrite Hc. exact Ha.
Qed.

(** ** Hints without a qualified name *)

Lemma filter_none {A : Type} (f : A -> bool) (l : list A) :
  (forall x, In x l -> f x = false) -> filter f l = [].
Proof.
  induction l as [|x l IH]; intro H; simpl; [reflexivity|].
  rewrite (H x (or_introl eq_refl)). apply IH. intros y Hy. apply H. now right.
Qed.

Lemma contains_piece (sub s p : pystr) (c : N) :
  In p (str_split c s) -> contains sub p = true -> contains sub s = true.
Proof.
  intros Hp H. apply str_split_piece_inside in Hp as [l [r ->]].
  apply contains_app in H as [l' [r' ->]]. apply contains_app.
  exists (l ++ l'), (r' ++ r). now rewrite <- !app_assoc.
Qed.

Lemma hint_lines_none (hint_code : pystr) :
  contains (py "ids.") hint_code = false -> hint_lines hint_code = [].
Proof.
  intro H. unfold hint_lines. rewrite filter_none; [reflexivity|].
  intros p Hp. destruct (contains (py "ids.") p) eqn:E; [|reflexivity].
  rewrite (contains_piece _ _ _ _ Hp E) in H. discriminate.
Qed.

(** C8.  A hint in which [ids.] does not occur is classified into three
    empty mappings. *)
Theorem C8_no_ids_three_empty (FO : SetOrder pystr) (hint_code : pystr) :
  contains (py "ids.") hint_code = false ->
  classify_variables FO hint_code = Some ([], [], []).
Proof.
  intro H. unfold classify_variables, scan.
  rewrite (hint_lines_none hint_code H). reflexivity.
Qed.

(** ** The classifier never fails *)

Lemma str_split_two (c : N) (s : pystr) :
  In c s -> exists h p r, str_split c s = h :: p :: r.
Proof.
  induction s as [|x s IH]; intros H; [destruct H|].
  rewrite str_split_cons. destruct (x =? c)%N eqn:E.
  - destruct (str_split c s) as [|p r] eqn:Es.
    + now apply str_split_not_nil in Es.
    + now exists [], p, r.
  - destruct H as [->|H]; [now rewrite N.eqb_refl in E|].
    destruct (IH H) as (h & p & r & ->). now exists (x :: h), p, r.
Qed.

Lemma foldM_total {S A : Type} (f : S -> A -> option S) (l : list A) :
  (forall s x, In x l -> exists s', f s x = Some s') ->
  forall s, exists r, foldM f l s = Some r.
Proof.
  induction l as [|x l IH]; intros H s; simpl.
  - now exists s.
  - destruct (H s x (or_introl eq_refl)) as [s' ->].
    apply IH. intros s0 y Hy. apply H. now right.
Qed.

Lemma foldM_invariant {S A : Type} (P : S -> Prop) (Q : A -> Prop)
    (f : S -> A -> option S) :
  (forall s x s', Q x -> P s -> f s x = Some s' -> P s') ->
  forall l s r, Forall Q l -> P s -> foldM f l s = Some r -> P r.
Proof.
  intros Hf l. induction l as [|x l IH]; intros s r Hl Hs; simpl.
  - now intros [= <-].
  - inversion Hl as [|? ? Hx Hl']; subst.
    destruct (f s x) as [s'|] eqn:E; [|discriminate].
    apply IH; [assumption|]. now apply (Hf s x s').
Qed.

(** What one turn of the inner loop does when it succeeds: it writes one
    name, a piece of the token after its first dot, in the chosen bucket. *)
Lemma classify_var_writes (line : pystr) (b b' : buckets) (var : pystr) :
  classify_var line b var = Some b' ->
  exists name v,
    In name (str_split DOT var) /\
    b' = with_bucket b (dict_to_insert line var)
           (dict_set str_eqb (bucket_of b (dict_to_insert line var)) name v).
Proof.
  unfold classify_var. set (d := dict_to_insert line var).
  destruct (str_split DOT var) as [|h [|name rest]] eqn:E; simpl; try discriminate.
  destruct (var_in_pack line name).
  - intros [= <-]. exists name. eexists. split; [right; now left|reflexivity].
  - destruct rest as [|field rest]; simpl.
    + intros [= <-]. exists name. eexists. split; [right; now left|reflexivity].
    + destruct (dict_get str_eqb (bucket_of b d) name) as [[|s]|];
        intros [= <-]; exists name; eexists; (split; [right; now left|reflexivity]).
Qed.

Lemma classify_var_total (line : pystr) (b : buckets) (var : pystr) :
  contains (py "ids.") var = true -> exists b', classify_var line b var = Some b'.
Proof.
  intro H. assert (Hd : In DOT var).
  { apply (contains_In _ _ _ H). simpl. unfold DOT. tauto. }
  destruct (str_split_two DOT var Hd) as (h & name & rest & E).
  unfold classify_var. rewrite E. simpl.
  destruct (var_in_pack line name); [eexists; reflexivity|].
  destruct rest as [|field rest]; simpl; [eexists; reflexivity|].
  destruct (dict_get str_eqb _ name) as [[|s]|]; eexists; reflexivity.
Qed.

Lemma classify_line_total (b : buckets) (line : pystr) :
  exists b', classify_line b line = Some b'.
Proof.
  unfold classify_line. apply foldM_total. intros s x Hx.
  apply filter_In in Hx as [_ Hx]. now apply classify_var_total.
Qed.

Lemma scan_total (hint_code : pystr) : exists b, scan hint_code = Some b.
Proof.
  unfold scan. apply foldM_total. intros s x _. apply classify_line_total.
Qed.

(** X7.  [classify_variables] returns three mappings on every string: the
    indexings [var_field[0]] and [var_field[1]] never leave the list, since a
    token that holds [ids.] splits on the dot into two pieces at least. *)
Lemma classify_variables_total (FO : SetOrder pystr) (hint_code : pystr) :
  exists i o io, classify_variables FO hint_code = Some (i, o, io).
Proof.
  unfold classify_variables. destruct (scan_total hint_code) as [b ->].
  now repeat eexists.
Qed.

(** ** Names hold no line break *)

Lemma str_split_piece_incl (c : N) (s p : pystr) :
  In p (str_split c s) -> incl p s.
Proof.
  intro H. apply str_split_piece_inside in H as [l [r ->]].
  intros x Hx. apply in_or_app. right. apply in_or_app. now left.
Qed.

Lemma ws_pieces_incl (s : pystr) :
  incl (fst (ws_pieces s)) s /\ forall t, In t (snd (ws_pieces s)) -> incl t s.
Proof.
  induction s as [|x s [IHh IHr]]; simpl.
  - split; [apply incl_refl|intros t []].
  - destruct (ws_pieces s) as [h r]. simpl in *.
    destruct (is_space x); simpl; split.
    + intros y [].
    + intros t Ht. apply incl_tl. destruct h; simpl in Ht.
      * now apply IHr.
      * destruct Ht as [<-|Ht]; [assumption|now apply IHr].
    + intros y [<-|Hy]; [now left|right; now apply IHh].
    + intros t Ht. apply incl_tl. now apply IHr.
Qed.

Lemma str_split_ws_incl (s t : pystr) : In t (str_split_ws s) -> incl t s.
Proof.
  unfold str_split_ws. pose proof (ws_pieces_incl s) as [Hh Hr].
  destruct (ws_pieces s) as [h r]. simpl in *.
  destruct h; simpl; [apply Hr|]. intros [<-|Ht]; [assumption|now apply Hr].
Qed.

Lemma multi_replace_NL (line : pystr) :
  ~ In NL line -> ~ In NL (multi_replace line PATTERNS).
Proof.
  intros H Hn. unfold multi_replace in Hn. apply in_map_iff in Hn as [x [Hx Hin]].
  destruct (negb (existsb (N.eqb x) PATTERNS)); [now subst|discriminate].
Qed.

Lemma hint_lines_NL (hint_code : pystr) :
  Forall (fun line => ~ In NL line) (hint_lines hint_code).
Proof.
  unfold hint_lines. apply Forall_forall. intros line H.
  apply in_map_iff in H as [p [<- Hp]]. apply filter_In in Hp as [Hp _].
  apply multi_replace_NL.
  pose proof (str_split_pieces_free NL hint_code) as F.
  rewrite Forall_forall in F. now apply F.
Qed.

Lemma names_all_with_bucket (P : pystr -> Prop) (b : buckets) (d : direction)
    (name : pystr) (v : set_shape) :
  names_all P b -> P name ->
  names_all P (with_bucket b d (dict_set str_eqb (bucket_of b d) name v)).
Proof.
  intros Hb Hn d'.
  assert (H : Forall P (dict_keys (dict_set str_eqb (bucket_of b d) name v))).
  { apply Forall_forall. intros x Hx. apply dict_set_keys_incl in Hx as [<-|Hx]; [assumption|].
    pose proof (Hb d) as F. rewrite Forall_forall in F. now apply F. }
  destruct d, d'; simpl; try exact H;
    first [exact (Hb Inout) | exact (Hb Input) | exact (Hb Output)].
Qed.

Lemma scan_names_NL (hint_code : pystr) (b : buckets) :
  scan hint_code = Some b -> names_all (fun name => ~ In NL name) b.
Proof.
  unfold scan.
  apply (foldM_invariant (names_all (fun name => ~ In NL name)) (fun line => ~ In NL line)).
  - intros s line s' Hline Hs. unfold classify_line.
    apply (foldM_invariant (names_all (fun name => ~ In NL name)) (fun var => ~ In NL var)).
    + intros s0 var s1 Hvar Hs0 Hstep.
      apply classify_var_writes in Hstep as (name & v & Hname & ->).
      apply names_all_with_bucket; [assumption|].
      intro Hn. apply Hvar. now apply (str_split_piece_incl _ _ _ Hname).
    + apply Forall_forall. intros var Hv. apply filter_In in Hv as [Hv _].
      intro Hn. apply Hline. now apply (str_split_ws_incl _ _ Hv).
    + assumption.
  - apply hint_lines_NL.
  - intros d. destruct d; constructor.
Qed.

Lemma classify_names_NL (FO : SetOrder pystr) (hint_code : pystr)
    (i o io : dict pystr shape) :
  classify_variables FO hint_code = Some (i, o, io) ->
  Forall (fun name => ~ In NL name) (dict_keys i) /\
  Forall (fun name => ~ In NL name) (dict_keys o) /\
  Forall (fun name => ~ In NL name) (dict_keys io).
Proof.
  unfold classify_variables. destruct (scan hint_code) as [b|] eqn:E; [|discriminate].
  intros [= <- <- <-]. pose proof (scan_names_NL hint_code b E) as H.
  rewrite !dict_keys_freeze.
  split; [|split; [exact (H Output)|exact (H Inout)]].
  apply Forall_forall. intros x Hx.
  apply (dict_update_keys_incl str_eqb) in Hx. rewrite !dict_keys_freeze in Hx.
  apply in_app_or in Hx as [Hx|Hx].
  - pose proof (H Input) as F. rewrite Forall_forall in F. now apply F.
  - pose proof (H Inout) as F. rewrite Forall_forall in F. now apply F.
Qed.

(** ** Text without line breaks *)

Lemma nlfree_check (s : pystr) :
  forallb (fun c => negb (c =? NL)%N) s = true -> nlfree s.
Proof.
  intros H Hin. rewrite forallb_forall in H. apply H in Hin.
  now rewrite N.eqb_refl in Hin.
Qed.

Lemma nlfree_app (a b : pystr) : nlfree a -> nlfree b -> nlfree (a ++ b).
Proof. intros Ha Hb H. apply in_app_or in H as [H|H]; auto. Qed.

Lemma nlfree_join (sep : pystr) (l : list pystr) :
  nlfree sep -> Forall nlfree l -> nlfree (str_join sep l).
Proof.
  intros Hs Hl. induction Hl as [|x l Hx Hl IH]; simpl; [intros []|].
  destruct l as [|y l]; [assumption|].
  apply nlfree_app; [assumption|]. apply nlfree_app; assumption.
Qed.

Lemma str_of_uint_nlfree (d : Decimal.uint) : nlfree (py (NilEmpty.string_of_uint d)).
Proof.
  induction d; simpl; try (intros [H|H]; [discriminate H|now apply IHd]).
  intros [].
Qed.

Lemma str_of_nat_nlfree (i : nat) : nlfree (str_of_nat i).
Proof. apply str_of_uint_nlfree. Qed.

Lemma nlfree_cons (c : N) (s : pystr) : c <> NL -> nlfree s -> nlfree (c :: s).
Proof. intros Hc Hs [H|H]; [now apply Hc|now apply Hs]. Qed.

Ltac nl_text :=
  repeat first
    [ assumption
    | apply nlfree_app
    | apply nlfree_cons; [discriminate|]
    | apply str_of_nat_nlfree
    | apply nlfree_check; vm_compute; reflexivity ].

Lemma str_split_head (a b : pystr) :
  nlfree a -> str_split NL (a ++ NL :: b) = a :: str_split NL b.
Proof. intro H. rewrite str_split_app, (str_split_free NL a H). reflexivity. Qed.

Lemma str_split_join_In (l : list pystr) (x p : pystr) :
  In x l -> In p (str_split NL x) -> In p (str_split NL (str_join [NL] l)).
Proof.
  induction l as [|x0 l IH]; intros Hx Hp; [destruct Hx|].
  destruct l as [|x1 l].
  - destruct Hx as [<-|[]]. exact Hp.
  - change (str_join [NL] (x0 :: x1 :: l)) with (x0 ++ NL :: str_join [NL] (x1 :: l)).
    rewrite str_split_app. apply in_or_app.
    destruct Hx as [<-|Hx]; [now left|right; now apply IH].
Qed.

Lemma Some_inj {A : Type} (a b : A) : Some a = Some b -> a = b.
Proof. congruence. Qed.

Lemma mapM_Forall2 {A B : Type} (f : A -> option B) (l : list A) (r : list B) :
  mapM f l = Some r -> Forall2 (fun x y => f x = Some y) l r.
Proof.
  revert r; induction l as [|x l IH]; simpl; intros r.
  - intros [= <-]. constructor.
  - destruct (f x) as [y|] eqn:E; [|discriminate].
    destruct (mapM f l) as [r'|]; [|discriminate].
    intros [= <-]. constructor; [assumption|now apply IH].
Qed.

Lemma mapM_total {A B : Type} (f : A -> option B) (l : list A) :
  (forall x, In x l -> exists y, f x = Some y) -> exists r, mapM f l = Some r.
Proof.
  induction l as [|x l IH]; intro H; simpl; [now eexists|].
  destruct (H x (or_introl eq_refl)) as [y ->].
  destruct IH as [r ->]; [intros z Hz; apply H; now right|]. now eexists.
Qed.

(** ** The type names *)

Lemma structs_dict_values (fields : list shape) (name : pystr) :
  In name (dict_values (structs_dict_from fields)) ->
  name = py "felt" \/ exists i, name = py "MyStruct" ++ str_of_nat i.
Proof.
  unfold structs_dict_from. intro H.
  apply dict_set_values_incl in H as [<-|H]; [now left|right].
  apply dict_update_values_incl in H. simpl in H.
  unfold dict_values in H. rewrite map_map in H. apply in_map_iff in H as [[i v] [<- _]].
  now exists i.
Qed.

Lemma structs_dict_values_nlfree (fields : list shape) (v : shape) (name : pystr) :
  dict_get shape_eqb (structs_dict_from fields) v = Some name -> nlfree name.
Proof.
  intro H. apply (dict_get_In shape_eqb shape_eqb_eq) in H.
  assert (Hv : In name (dict_values (structs_dict_from fields))).
  { unfold dict_values. apply in_map_iff. now exists (v, name). }
  apply structs_dict_values in Hv as [->|[i ->]]; nl_text.
Qed.

Lemma struct_decl_head (name : pystr) (fields : shape) :
  nlfree name ->
  In (py "struct " ++ name ++ py " {") (str_split NL (struct_decl name fields)).
Proof.
  intro H. unfold struct_decl.
  replace (py "struct " ++ name ++ py " {" ++ [NL] ++
           str_join [NL] (map (fun field_name => [TAB] ++ field_name ++ py ": felt,") (shape_iter fields)) ++
           [NL] ++ py "}")
    with ((py "struct " ++ name ++ py " {") ++ NL ::
           str_join [NL] (map (fun field_name => [TAB] ++ field_name ++ py ": felt,") (shape_iter fields)) ++
           [NL] ++ py "}")
    by (now rewrite <- !app_assoc).
  rewrite str_split_head; [now left|]. nl_text.
Qed.

(** A type name other than [felt] that [structs_dict] gives has its struct
    declared in [declared_structs]. *)
Lemma declared_structs_has (fields : list shape) (v : shape) (name : pystr) :
  dict_get shape_eqb (structs_dict_from fields) v = Some name ->
  name <> py "felt" ->
  In (py "struct " ++ name ++ py " {")
     (str_split NL (declared_structs_of (structs_dict_from fields))).
Proof.
  intros H Hname. unfold declared_structs_of.
  apply (str_split_join_In _ (struct_decl name v)).
  - apply in_map_iff. exists (v, name). split; [reflexivity|].
    apply filter_In. split.
    + now apply (dict_get_In shape_eqb shape_eqb_eq).
    + simpl. apply negb_true_iff. now apply str_eqb_neq.
  - apply struct_decl_head. now apply (structs_dict_values_nlfree fields v).
Qed.

(** ** The lines of the hint routine *)

Lemma hint_func_text_lines (signature locals hint output_return : pystr) :
  nlfree signature -> nlfree output_return ->
  str_split NL (hint_func_text signature locals hint output_return)
  = (py "func hint_func" ++ signature ++ py " {") ::
    ([TAB] ++ py "alloc_locals;") ::
    str_split NL locals ++ [py "%{"] ++ str_split NL hint ++
    [py "%}"; [TAB] ++ py "return(" ++ output_return ++ py ");"; py "}"].
Proof.
  intros Hs Hr. unfold hint_func_text.
  replace (py "func hint_func" ++ signature ++ py " {" ++ [NL; TAB] ++ py "alloc_locals;" ++
           [NL] ++ locals ++ [NL] ++ py "%{" ++ [NL] ++ hint ++ [NL] ++ py "%}" ++ [NL; TAB] ++
           py "return(" ++ output_return ++ py ");" ++ [NL] ++ py "}")
    with ((py "func hint_func" ++ signature ++ py " {") ++ NL ::
          ([TAB] ++ py "alloc_locals;") ++ NL ::
          locals ++ NL :: py "%{" ++ NL :: hint ++ NL :: py "%}" ++ NL ::
          ([TAB] ++ py "return(" ++ output_return ++ py ");") ++ NL :: py "}")
    by (rewrite <- !app_assoc; reflexivity).
  rewrite str_split_head by nl_text.
  rewrite str_split_head by nl_text.
  rewrite (str_split_app NL locals). rewrite str_split_head by nl_text.
  rewrite (str_split_app NL hint). rewrite str_split_head by nl_text.
  rewrite str_split_head by nl_text.
  rewrite (str_split_free NL (py "}")) by nl_text.
  reflexivity.
Qed.

Lemma hint_input_vars_nlfree (fields : list shape) (i : dict pystr shape) (params : list pystr) :
  Forall nlfree (dict_keys i) ->
  mapM (hint_input_var (structs_dict_from fields)) i = Some params ->
  Forall nlfree params.
Proof.
  intros Hk H. apply mapM_Forall2 in H. unfold dict_keys in Hk.
  induction H as [|[name v] y l r Hxy _ IH]; [constructor|].
  inversion Hk; subst. constructor; [|now apply IH].
  unfold hint_input_var in Hxy. simpl in Hxy.
  destruct (dict_get shape_eqb (structs_dict_from fields) v) as [struct_name|] eqn:E;
    [|discriminate].
  injection Hxy as <-. apply structs_dict_values_nlfree in E. cbn [fst snd] in *. nl_text.
Qed.

Lemma type_names_nlfree (fields : list shape) (vs : list shape) (types : list pystr) :
  mapM (dict_get shape_eqb (structs_dict_from fields)) vs = Some types ->
  Forall nlfree types.
Proof.
  intro H. apply mapM_Forall2 in H.
  induction H as [|v y l r Hxy _ IH]; constructor; [|assumption].
  now apply structs_dict_values_nlfree in Hxy.
Qed.

Lemma signature_nlfree (fields : list shape) (i o io : dict pystr shape) (signature : pystr) :
  Forall nlfree (dict_keys i) ->
  signature_of (structs_dict_from fields) i o io = Some signature ->
  nlfree signature.
Proof.
  intros Hk. unfold signature_of.
  destruct (mapM (hint_input_var _) i) as [params|] eqn:Hp; [|discriminate].
  destruct (mapM (dict_get shape_eqb _) _) as [types|] eqn:Ht; [|discriminate].
  apply hint_input_vars_nlfree in Hp; [|assumption].
  apply type_names_nlfree in Ht.
  assert (nlfree (str_join (py ", ") params)) by (apply nlfree_join; [nl_text|assumption]).
  assert (nlfree (str_join (py ", ") types)) by (apply nlfree_join; [nl_text|assumption]).
  assert (nlfree (str_join [] types)) by (apply nlfree_join; [intros []|assumption]).
  destruct (length _ =? 1)%nat; intros [= <-]; nl_text.
Qed.

Lemma dict_keys_nlfree_union (o io : dict pystr shape) :
  Forall nlfree (dict_keys o) -> Forall nlfree (dict_keys io) ->
  Forall nlfree (dict_keys (dict_union str_eqb o io)).
Proof.
  intros Ho Hio. apply Forall_forall. intros x Hx.
  apply (dict_update_keys_incl str_eqb) in Hx.
  rewrite Forall_forall in Ho, Hio. apply in_app_or in Hx as [Hx|Hx]; auto.
Qed.

(** C6.  When a program is produced, the first line of [hint_func] closes
    its signature with the return type: the one type name when the mapping
    Output | Inout has exactly one entry, and otherwise the type names of
    all its entries, in its order, joined by a comma and a space and put in
    parentheses. *)
Theorem C6_return_type (SO : SetOrder shape) (FO : SetOrder pystr)
    (hint_code : pystr) (out : list pystr) :
  generate_cairo_hint_program SO FO hint_code = Some out ->
  exists i o io main_func params types ret body,
    classify_variables FO hint_code = Some (i, o, io) /\
    main_func_of (structs_dict_of SO i o) i = Some main_func /\
    mapM (hint_input_var (structs_dict_of SO i o)) i = Some params /\
    mapM (dict_get shape_eqb (structs_dict_of SO i o))
         (dict_values (dict_union str_eqb o io)) = Some types /\
    out = str_split NL (declared_structs_of (structs_dict_of SO i o)) ++
          str_split NL main_func ++
          (py "func hint_func(" ++ str_join (py ", ") params ++ py ") -> " ++ ret ++ py " {")
          :: body /\
    (length (dict_union str_eqb o io) = 1%nat -> exists t, types = [t] /\ ret = t) /\
    (length (dict_union str_eqb o io) <> 1%nat ->
     ret = py "(" ++ str_join (py ", ") types ++ py ")").
Proof.
  unfold generate_cairo_hint_program.
  destruct (classify_variables FO hint_code) as [[[i o] io]|] eqn:Hc; [|discriminate].
  destruct (classify_names_NL FO hint_code i o io Hc) as (Hi & Ho & Hio).
  unfold assemble.
  destruct (main_func_of (structs_dict_of SO i o) i) as [main_func|] eqn:Hm; [|discriminate].
  unfold hint_func_of.
  destruct (signature_of (structs_dict_of SO i o) i o io) as [signature|] eqn:Hs; [|discriminate].
  destruct (mapM (local_declare _) o) as [locals|]; [|discriminate].
  intros [= <-].
  pose proof (signature_nlfree _ i o io signature Hi Hs) as Hnl.
  rewrite hint_func_text_lines;
    [|assumption|apply nlfree_join; [nl_text|now apply dict_keys_nlfree_union]].
  unfold signature_of in Hs.
  destruct (mapM (hint_input_var _) i) as [params|] eqn:Hp; [|discriminate].
  destruct (mapM (dict_get shape_eqb _) _) as [types|] eqn:Ht; [|discriminate].
  assert (Hlen : length types = length (dict_union str_eqb o io)).
  { apply mapM_Forall2, Forall2_length in Ht. unfold dict_values in Ht.
    now rewrite length_map in Ht. }
  destruct (length (dict_union str_eqb o io) =? 1)%nat eqn:E;
    apply Some_inj in Hs; subst signature.
  - apply Nat.eqb_eq in E. rewrite E in Hlen.
    destruct types as [|t [|t' types]]; try discriminate Hlen.
    exists i, o, io, main_func, params, [t], t. eexists.
    repeat split; try assumption; try reflexivity.
    + rewrite <- !app_assoc. reflexivity.
    + intros _. now exists t.
    + intro H. contradiction.
  - apply Nat.eqb_neq in E.
    exists i, o, io, main_func, params, types, (py "(" ++ str_join (py ", ") types ++ py ")").
    eexists. repeat split; try assumption; try reflexivity.
    + rewrite <- !app_assoc. reflexivity.
    + intro H. contradiction.
Qed.

(** ** Sets as lists *)

Section SetFacts.
Context {A : Type} (aeq : A -> A -> bool).
Hypothesis aeq_eq : forall a b, aeq a b = true <-> a = b.

Lemma set_add_In (x y : A) (s : list A) : In y (set_add aeq x s) <-> y = x \/ In y s.
Proof.
  unfold set_add. destruct (existsb (aeq x) s) eqn:E.
  - split; [now right|]. intros [->|H]; [|assumption].
    apply existsb_exists in E as [z [Hz Hxz]]. apply aeq_eq in Hxz. now subst.
  - rewrite in_app_iff. simpl. intuition.
Qed.

Lemma set_add_NoDup (x : A) (s : list A) : NoDup s -> NoDup (set_add aeq x s).
Proof.
  intro H. unfold set_add. destruct (existsb (aeq x) s) eqn:E; [assumption|].
  apply NoDup_app; [assumption|repeat constructor; intros []|].
  intros y Hy [<-|[]]. apply Bool.not_true_iff_false in E. apply E.
  apply existsb_exists. exists x. split; [assumption|now apply aeq_eq].
Qed.

Lemma set_fold_spec (l s : list A) :
  NoDup s ->
  NoDup (fold_left (fun s x => set_add aeq x s) l s) /\
  forall y, In y (fold_left (fun s x => set_add aeq x s) l s) <-> In y s \/ In y l.
Proof.
  revert s; induction l as [|x l IH]; intros s Hs; simpl.
  - split; [assumption|]. intuition.
  - destruct (IH (set_add aeq x s) (set_add_NoDup x s Hs)) as [Hn Hi].
    split; [assumption|]. intro y. rewrite Hi, set_add_In. intuition.
Qed.

Lemma set_of_list_NoDup (l : list A) : NoDup (set_of_list aeq l).
Proof. apply set_fold_spec. constructor. Qed.

Lemma set_of_list_In (l : list A) (y : A) : In y (set_of_list aeq l) <-> In y l.
Proof.
  unfold set_of_list. destruct (set_fold_spec l [] (NoDup_nil A)) as [_ H].
  rewrite H. simpl. intuition.
Qed.
End SetFacts.

(** ** Every shape of Input | Output has a type name *)

Lemma In_combine_seq {A : Type} (l : list A) (v : A) (n : nat) :
  In v l -> exists k, In (k, v) (combine (seq n (length l)) l).
Proof.
  revert n; induction l as [|x l IH]; intros n H; [destruct H|].
  simpl. destruct H as [->|H].
  - exists n. now left.
  - destruct (IH (S n) H) as [k Hk]. exists k. now right.
Qed.

Lemma structs_dict_from_lookup (fields : list shape) (v : shape) :
  v = Felt \/ In v fields ->
  exists name, dict_get shape_eqb (structs_dict_from fields) v = Some name.
Proof.
  intro H.
  assert (Hh : dict_has shape_eqb (structs_dict_from fields) v = true).
  { unfold structs_dict_from.
    rewrite (dict_has_set shape_eqb shape_eqb_eq), (dict_has_update shape_eqb shape_eqb_eq).
    destruct (shape_eqb v Felt) eqn:E; [reflexivity|]. simpl.
    destruct H as [->|H]; [discriminate E|].
    apply (dict_has_In shape_eqb shape_eqb_eq).
    destruct (In_combine_seq fields v 0 H) as [k Hk].
    unfold dict_keys. rewrite map_map. apply in_map_iff. exists (k, v).
    split; [reflexivity|]. apply filter_In. split; [assumption|].
    simpl. now rewrite E. }
  unfold dict_has in Hh. destruct (dict_get shape_eqb _ v) as [name|]; [|discriminate].
  now exists name.
Qed.

Lemma structs_dict_of_lookup (SO : SetOrder shape) (i o : dict pystr shape) (v : shape) :
  In v (dict_values (dict_union str_eqb i o)) ->
  exists name, dict_get shape_eqb (structs_dict_of SO i o) v = Some name.
Proof.
  intro H. apply structs_dict_from_lookup. right. unfold fields_of.
  apply iter_order_In; [apply (set_of_list_NoDup shape_eqb shape_eqb_eq)|].
  now apply (set_of_list_In shape_eqb shape_eqb_eq).
Qed.

Lemma main_func_of_total (sd : dict shape pystr) (i : dict pystr shape) :
  (forall v, In v (dict_values i) -> exists name, dict_get shape_eqb sd v = Some name) ->
  exists main_func, main_func_of sd i = Some main_func.
Proof.
  intro H. unfold main_func_of.
  destruct (foldM_total (main_var_assignment sd) i) with (s := @nil N) as [r ->].
  - intros acc [name v] Hin. unfold main_var_assignment.
    destruct (H v) as [struct_name ->].
    + unfold dict_values. apply in_map_iff. now exists (name, v).
    + destruct (str_eqb struct_name (py "felt")); eexists; reflexivity.
  - eexists; reflexivity.
Qed.

Lemma hint_input_vars_total (sd : dict shape pystr) (i : dict pystr shape) :
  (forall v, In v (dict_values i) -> exists name, dict_get shape_eqb sd v = Some name) ->
  exists params, mapM (hint_input_var sd) i = Some params.
Proof.
  intro H. apply mapM_total. intros [name v] Hin. unfold hint_input_var. simpl.
  destruct (H v) as [struct_name ->]; [|eexists; reflexivity].
  unfold dict_values. apply in_map_iff. now exists (name, v).
Qed.

(** C10.  When the hint is classified with empty Output and Inout mappings,
    a program is produced; the first line of [hint_func] gives the return
    type as the empty pair of parentheses, and the routine ends with the
    line [return();] and the closing brace. *)
Theorem C10_no_outputs_empty_return (SO : SetOrder shape) (FO : SetOrder pystr)
    (hint_code : pystr) (i : dict pystr shape) :
  classify_variables FO hint_code = Some (i, [], []) ->
  exists params before body,
    mapM (hint_input_var (structs_dict_of SO i [])) i = Some params /\
    generate_cairo_hint_program SO FO hint_code
    = Some (before ++
            (py "func hint_func(" ++ str_join (py ", ") params ++ py ") -> () {") ::
            body ++ [[TAB] ++ py "return();"; py "}"]).
Proof.
  intro Hc. destruct (classify_names_NL FO hint_code i [] [] Hc) as (Hi & _ & _).
  assert (Hl : forall v, In v (dict_values i) ->
                exists name, dict_get shape_eqb (structs_dict_of SO i []) v = Some name).
  { intros v Hv. now apply structs_dict_of_lookup. }
  destruct (main_func_of_total _ i Hl) as [main_func Hm].
  destruct (hint_input_vars_total _ i Hl) as [params Hp].
  assert (Hs : signature_of (structs_dict_of SO i []) i [] []
               = Some (py "(" ++ str_join (py ", ") params ++ py ") -> (" ++ py ")")).
  { unfold signature_of. rewrite Hp. reflexivity. }
  pose proof (signature_nlfree _ i [] [] _ Hi Hs) as Hnl.
  exists params, (str_split NL (declared_structs_of (structs_dict_of SO i [])) ++
                  str_split NL main_func).
  exists (([TAB] ++ py "alloc_locals;") :: str_split NL [] ++ [py "%{"] ++
          str_split NL hint_code ++ [py "%}"]).
  split; [assumption|].
  unfold generate_cairo_hint_program. rewrite Hc. unfold assemble. rewrite Hm.
  unfold hint_func_of. rewrite Hs. cbn [mapM str_join dict_keys dict_union dict_update fold_left map].
  rewrite hint_func_text_lines; [|assumption|intros []].
  f_equal. rewrite <- !app_assoc. do 2 apply f_equal.
  f_equal; try reflexivity. cbn [app]. f_equal.
  repeat (rewrite <- app_assoc; cbn [app]). reflexivity.
Qed.

(** Both outcomes named in C4 occur. *)
Example sum_program_insertion_order :
  generate_cairo_hint_program (insertion_order shape) (insertion_order pystr) hint_sum
  = Some (sum_program (py "MyStruct0") (py "x") (py "y")).
Proof. vm_compute. reflexivity. Qed.

Example sum_program_reverse_order :
  generate_cairo_hint_program (reverse_order shape) (reverse_order pystr) hint_sum
  = Some (sum_program (py "MyStruct1") (py "y") (py "x")).
Proof. vm_compute. reflexivity. Qed.

(** ** The theorems with hypotheses, at concrete hints *)

(** C6 at the same hint: one returned variable, the return type is [felt]. *)
Lemma C6_witness :
  exists i o io main_func params types ret body,
    classify_variables (insertion_order pystr) hint_sum = Some (i, o, io) /\
    main_func_of (structs_dict_of (insertion_order shape) i o) i = Some main_func /\
    mapM (hint_input_var (structs_dict_of (insertion_order shape) i o)) i = Some params /\
    mapM (dict_get shape_eqb (structs_dict_of (insertion_order shape) i o))
         (dict_values (dict_union str_eqb o io)) = Some types /\
    sum_program (py "MyStruct0") (py "x") (py "y")
    = str_split NL (declared_structs_of (structs_dict_of (insertion_order shape) i o)) ++
      str_split NL main_func ++
      (py "func hint_func(" ++ str_join (py ", ") params ++ py ") -> " ++ ret ++ py " {")
      :: body /\
    (length (dict_union str_eqb o io) = 1%nat -> exists t, types = [t] /\ ret = t) /\
    (length (dict_union str_eqb o io) <> 1%nat ->
     ret = py "(" ++ str_join (py ", ") types ++ py ")").
Proof.
  apply (C6_return_type (insertion_order shape) (insertion_order pystr)
           hint_sum (sum_program (py "MyStruct0") (py "x") (py "y"))).
  vm_compute. reflexivity.
Defined.

(** C8 at the hint [x = 1]. *)
Lemma C8_witness :
  contains (py "ids.") hint_no_ids = false /\
  classify_variables (insertion_order pystr) hint_no_ids = Some ([], [], []).
Proof.
  split; [vm_compute; reflexivity|].
  apply C8_no_ids_three_empty. vm_compute. reflexivity.
Defined.

(** C10 at the hint [y = ids.c.z + ids.d], which only reads. *)
Lemma C10_witness :
  exists params before body,
    mapM (hint_input_var
            (structs_dict_of (insertion_order shape)
               [(py "c", Tuple [py "z"]); (py "d", Felt)] []))
         [(py "c", Tuple [py "z"]); (py "d", Felt)] = Some params /\
    generate_cairo_hint_program (insertion_order shape) (insertion_order pystr) hint_inputs_only
    = Some (before ++
            (py "func hint_func(" ++ str_join (py ", ") params ++ py ") -> () {") ::
            body ++ [[TAB] ++ py "return();"; py "}"]).
Proof.
  apply (C10_no_outputs_empty_return (insertion_order shape) (insertion_order pystr)
           hint_inputs_only [(py "c", Tuple [py "z"]); (py "d", Felt)]).
  vm_compute. reflexivity.
Defined.

(** * Further properties of the code *)

(** ** [multi_replace] *)



(** ** [var_in_pack] *)

Lemma contains_slice (sub s : pystr) (lo hi : Z) :
  contains sub (str_slice s lo hi) = true -> contains sub s = true.
Proof.
  unfold str_slice. intro H. apply contains_app in H as (l & r & H). apply contains_app.
  set (n := Z.to_nat (slice_bound (Z.of_nat (length s)) hi - slice_bound (Z.of_nat (length s)) lo)) in *.
  set (m := Z.to_nat (slice_bound (Z.of_nat (length s)) lo)) in *.
  exists (firstn m s ++ l), (r ++ skipn n (skipn m s)).
  rewrite <- (firstn_skipn m s) at 1. rewrite <- (firstn_skipn n (skipn m s)) at 1.
  rewrite H, <- !app_assoc. reflexivity.
Qed.

(** X2.  When [var_in_pack] answers yes, the line holds a pack call and the
    qualified name. *)
Theorem var_in_pack_sound (line stripped_var : pystr) :
  var_in_pack line stripped_var = true ->
  contains (py "pack(") line = true /\
  contains (py "ids." ++ stripped_var) line = true.
Proof.
  unfold var_in_pack. destruct (contains (py "pack(") line); simpl; [|discriminate].
  intro H. split; [reflexivity|]. now apply contains_slice in H.
Qed.

(** X2 at a concrete input. *)
Lemma var_in_pack_sound_witness :
  var_in_pack hint_pack_arg (py "p") = true /\
  contains (py "pack(") hint_pack_arg = true /\
  contains (py "ids." ++ py "p") hint_pack_arg = true.
Proof.
  assert (H : var_in_pack hint_pack_arg (py "p") = true) by (vm_compute; reflexivity).
  split; [exact H|]. exact (var_in_pack_sound hint_pack_arg (py "p") H).
Defined.

(** ** The hint in the program *)

(** X17.  When a program is produced, it ends with the hint between its two
    markers, line for line as it was given, the return of the names of
    Output | Inout, and the closing brace. *)
Theorem hint_embedded_verbatim (SO : SetOrder shape) (FO : SetOrder pystr)
    (hint_code : pystr) (out : list pystr) :
  generate_cairo_hint_program SO FO hint_code = Some out ->
  exists i o io before,
    classify_variables FO hint_code = Some (i, o, io) /\
    out = before ++ [py "%{"] ++ str_split NL hint_code ++
          [py "%}";
           [TAB] ++ py "return(" ++
             str_join (py ", ") (dict_keys (dict_union str_eqb o io)) ++ py ");";
           py "}"].
Proof.
  unfold generate_cairo_hint_program.
  destruct (classify_variables FO hint_code) as [[[i o] io]|] eqn:Hc; [|discriminate].
  destruct (classify_names_NL FO hint_code i o io Hc) as (Hi & Ho & Hio).
  unfold assemble.
  destruct (main_func_of (structs_dict_of SO i o) i) as [main_func|]; [|discriminate].
  unfold hint_func_of.
  destruct (signature_of (structs_dict_of SO i o) i o io) as [signature|] eqn:Hs; [|discriminate].
  destruct (mapM (local_declare _) o) as [locals|]; [|discriminate].
  intros [= <-].
  rewrite hint_func_text_lines;
    [|exact (signature_nlfree (fields_of SO i o) i o io signature Hi Hs)
     |apply nlfree_join; [nl_text|now apply dict_keys_nlfree_union]].
  exists i, o, io. eexists. split; [reflexivity|].
  rewrite !app_comm_cons, !app_assoc. reflexivity.
Qed.

(** X17 at a concrete input. *)
Lemma hint_embedded_verbatim_witness :
  exists i o io before,
    classify_variables (insertion_order pystr) hint_sum = Some (i, o, io) /\
    sum_program (py "MyStruct0") (py "x") (py "y")
    = before ++ [py "%{"] ++ str_split NL hint_sum ++
      [py "%}";
       [TAB] ++ py "return(" ++
         str_join (py ", ") (dict_keys (dict_union str_eqb o io)) ++ py ");";
       py "}"].
Proof.
  apply (hint_embedded_verbatim (insertion_order shape) (insertion_order pystr)
           hint_sum (sum_program (py "MyStruct0") (py "x") (py "y"))).
  vm_compute. reflexivity.
Defined.

(** ** The direction of a token around the first equals sign *)

Lemma startswith_extend (sub a r : pystr) :
  startswith sub a = true -> startswith sub (a ++ r) = true.
Proof.
  intro H. apply startswith_app in H as [t ->]. apply startswith_app.
  exists (t ++ r). now rewrite app_assoc.
Qed.

Lemma startswith_within (sub a r : pystr) :
  startswith sub (a ++ r) = true -> (length sub <= length a)%nat -> startswith sub a = true.
Proof.
  revert a; induction sub as [|y sub IH]; intros a H Hl; [reflexivity|].
  destruct a as [|x a]; simpl in Hl; [lia|].
  simpl in H |- *. apply andb_true_iff in H as [-> H]. simpl.
  apply IH; [assumption|lia].
Qed.

Lemma startswith_across (sub a r : pystr) (c : N) :
  startswith sub (a ++ c :: r) = true -> startswith sub a = true \/ In c sub.
Proof.
  revert a; induction sub as [|y sub IH]; intros a H; [now left|].
  destruct a as [|x a]; simpl in H; apply andb_true_iff in H as [Hy H].
  - right. left. now apply N.eqb_eq in Hy.
  - destruct (IH a H) as [Hs|Hc].
    + left. simpl. now rewrite Hy, Hs.
    + right. now right.
Qed.

Lemma contains_length (sub s : pystr) :
  contains sub s = true -> (length sub <= length s)%nat.
Proof.
  intro H. apply contains_app in H as (l & r & ->). rewrite !length_app. lia.
Qed.

Lemma find_at_prefix (sub l r : pystr) (i : Z) :
  contains sub l = true -> find_at sub (l ++ r) i = find_at sub l i.
Proof.
  revert i; induction l as [|x l IH]; intros i H.
  - simpl in H. rewrite orb_false_r in H. destruct sub; [|discriminate].
    simpl. now destruct r.
  - simpl app. simpl find_at.
    destruct (startswith sub (x :: l)) eqn:E.
    + change (x :: l ++ r) with ((x :: l) ++ r). now rewrite (startswith_extend _ _ r E).
    + simpl in H. rewrite E in H. simpl in H.
      destruct (startswith sub (x :: l ++ r)) eqn:E'.
      * apply contains_length in H.
        rewrite (startswith_within sub (x :: l) r E') in E; [discriminate|simpl; lia].
      * now apply IH.
Qed.

Lemma find_at_bound (sub l : pystr) (i : Z) :
  contains sub l = true -> sub <> [] -> find_at sub l i < i + Z.of_nat (length l).
Proof.
  revert i; induction l as [|x l IH]; intros i H Hn.
  - simpl in H. rewrite orb_false_r in H. destruct sub; [contradiction|discriminate].
  - simpl find_at. simpl in H. destruct (startswith sub (x :: l)); simpl in H.
    + simpl length. lia.
    + specialize (IH (i + 1) H Hn). simpl length. lia.
Qed.

Lemma find_at_char (c : N) (l r : pystr) (i : Z) :
  ~ In c l -> find_at [c] (l ++ c :: r) i = i + Z.of_nat (length l).
Proof.
  revert i; induction l as [|x l IH]; intros i H; simpl find_at.
  - simpl. rewrite N.eqb_refl. simpl. lia.
  - simpl app. cbn [startswith].
    destruct (c =? x)%N eqn:E.
    + apply N.eqb_eq in E. subst. exfalso. apply H. now left.
    + simpl. rewrite IH; [simpl length; lia|]. intro Hc. apply H. now right.
Qed.

Lemma startswith_other_head (sub r : pystr) (c : N) :
  ~ In c sub -> sub <> [] -> startswith sub (c :: r) = false.
Proof.
  intros Hc Hn. destruct sub as [|y sub]; [contradiction|]. simpl.
  destruct (y =? c)%N eqn:E; [|reflexivity].
  apply N.eqb_eq in E. subst. exfalso. apply Hc. now left.
Qed.

Lemma find_at_skip (sub l r : pystr) (c : N) (i : Z) :
  contains sub l = false -> ~ In c sub -> sub <> [] ->
  find_at sub (l ++ c :: r) i = find_at sub r (i + Z.of_nat (length l) + 1).
Proof.
  intros H Hc Hn. revert i H; induction l as [|x l IH]; intros i H.
  - simpl app. simpl find_at. rewrite (startswith_other_head sub r c Hc Hn).
    simpl length. f_equal. lia.
  - simpl in H. apply orb_false_iff in H as [Hs Hl].
    simpl app. simpl find_at.
    destruct (startswith sub (x :: l ++ c :: r)) eqn:E.
    + change (x :: l ++ c :: r) with ((x :: l) ++ c :: r) in E.
      apply startswith_across in E as [E|E]; [congruence|contradiction].
    + rewrite IH by assumption. simpl length. f_equal. lia.
Qed.

Lemma str_find_from_at (sub l r : pystr) (c : N) :
  str_find_from sub (l ++ c :: r) (Z.of_nat (length l))
  = find_at sub (c :: r) (Z.of_nat (length l)).
Proof.
  unfold str_find_from.
  destruct (Z.of_nat (length l) <? 0) eqn:E; [apply Z.ltb_lt in E; lia|].
  destruct (Z.of_nat (length (l ++ c :: r)) <? Z.of_nat (length l)) eqn:E'.
  - apply Z.ltb_lt in E'. rewrite length_app in E'. lia.
  - rewrite Nat2Z.id, skipn_app, skipn_all, Nat.sub_diag. reflexivity.
Qed.

(** X4.  A token that stands before the first equals sign of the line and
    nowhere from that sign on is sent to the Output mapping. *)
Theorem direction_output (lhs rhs var : pystr) :
  ~ In EQ lhs ->
  contains var lhs = true ->
  contains var (EQ :: rhs) = false ->
  dict_to_insert (lhs ++ EQ :: rhs) var = Output.
Proof.
  intros He Hl Hr.
  assert (Hn : var <> []) by (intros ->; discriminate Hr).
  unfold dict_to_insert, str_find. change (py "=") with [EQ].
  rewrite (find_at_char EQ lhs rhs 0 He), (find_at_prefix var lhs _ 0 Hl).
  pose proof (find_at_bound var lhs 0 Hl Hn) as Hb.
  replace (0 + Z.of_nat (length lhs)) with (Z.of_nat (length lhs)) by lia.
  rewrite str_find_from_at, (find_at_absent _ _ _ Hr).
  destruct (Z.of_nat (length lhs) <? -1) eqn:E1; [apply Z.ltb_lt in E1; lia|].
  rewrite andb_false_r.
  destruct (Z.of_nat (length lhs) <? find_at var lhs 0) eqn:E2; [apply Z.ltb_lt in E2; lia|].
  reflexivity.
Qed.

(** X5.  A token free of equals signs that stands after the first equals sign of
    the line and not before it is sent to the Input mapping. *)
Theorem direction_input (lhs rhs var : pystr) :
  ~ In EQ lhs ->
  ~ In EQ var ->
  contains var lhs = false ->
  contains var rhs = true ->
  dict_to_insert (lhs ++ EQ :: rhs) var = Input.
Proof.
  intros He Hv Hl Hr.
  assert (Hn : var <> []) by (intros ->; destruct lhs; discriminate Hl).
  unfold dict_to_insert, str_find. change (py "=") with [EQ].
  rewrite (find_at_char EQ lhs rhs 0 He), (find_at_skip var lhs rhs EQ 0 Hl Hv Hn).
  pose proof (find_at_contains var rhs (0 + Z.of_nat (length lhs) + 1) Hr) as Hb.
  set (p := find_at var rhs (0 + Z.of_nat (length lhs) + 1)) in *.
  destruct (p <? 0 + Z.of_nat (length lhs)) eqn:E1;
    [apply Z.ltb_lt in E1; lia|]. cbn [andb].
  destruct (0 + Z.of_nat (length lhs) <? p) eqn:E2; [reflexivity|].
  apply Z.ltb_ge in E2. lia.
Qed.

(** X6.  A token free of equals signs that stands both before and after the
    first equals sign of the line is sent to the Inout mapping. *)
Theorem direction_inout (lhs rhs var : pystr) :
  ~ In EQ lhs ->
  ~ In EQ var ->
  var <> [] ->
  contains var lhs = true ->
  contains var rhs = true ->
  dict_to_insert (lhs ++ EQ :: rhs) var = Inout.
Proof.
  intros He Hv Hn Hl Hr.
  unfold dict_to_insert, str_find. change (py "=") with [EQ].
  rewrite (find_at_char EQ lhs rhs 0 He), (find_at_prefix var lhs _ 0 Hl).
  pose proof (find_at_bound var lhs 0 Hl Hn) as Hb.
  replace (0 + Z.of_nat (length lhs)) with (Z.of_nat (length lhs)) in * by lia.
  rewrite str_find_from_at. simpl find_at.
  rewrite (startswith_other_head var rhs EQ Hv Hn).
  pose proof (find_at_contains var rhs (Z.of_nat (length lhs) + 1) Hr) as Hb'.
  set (p := find_at var rhs (Z.of_nat (length lhs) + 1)) in *.
  destruct (find_at var lhs 0 <? Z.of_nat (length lhs)) eqn:E1;
    [|apply Z.ltb_ge in E1; lia].
  destruct (Z.of_nat (length lhs) <? p) eqn:E2; [reflexivity|].
  apply Z.ltb_ge in E2. lia.
Qed.

(** X4 at a concrete input. *)
Lemma direction_output_witness :
  dict_to_insert (py "ids.a " ++ EQ :: py " ids.b + 1") (py "ids.a") = Output.
Proof.
  apply direction_output; [simpl; unfold EQ; intuition discriminate| |];
    vm_compute; reflexivity.
Defined.

(** X5 at a concrete input. *)
Lemma direction_input_witness :
  dict_to_insert (py "ids.a " ++ EQ :: py " ids.b + 1") (py "ids.b") = Input.
Proof.
  apply direction_input;
    [simpl; unfold EQ; intuition discriminate|simpl; unfold EQ; intuition discriminate| |];
    vm_compute; reflexivity.
Defined.

(** X6 at a concrete input. *)
Lemma direction_inout_witness :
  dict_to_insert (py "ids.a " ++ EQ :: py " ids.a + 1") (py "ids.a") = Inout.
Proof.
  apply direction_inout;
    [simpl; unfold EQ; intuition discriminate|simpl; unfold EQ; intuition discriminate
    |discriminate| |]; vm_compute; reflexivity.
Defined.

(** X3 at a concrete input. *)
Lemma no_equals_is_input_witness :
  dict_to_insert (py "pack ids.p  PRIME ") (py "ids.p") = Input.
Proof.
  apply no_equals_is_input; [vm_compute; reflexivity|].
  vm_compute. right. left. reflexivity.
Defined.

(** ** What the classifier keeps true *)

Section DictKeys.
Context {K V : Type} (keq : K -> K -> bool).
Hypothesis keq_eq : forall a b, keq a b = true <-> a = b.

Lemma dict_set_keys_NoDup (d : dict K V) (k : K) (v : V) :
  NoDup (dict_keys d) -> NoDup (dict_keys (dict_set keq d k v)).
Proof.
  induction d as [|[k1 v1] t IH]; simpl; intro H.
  - repeat constructor. intros [].
  - inversion H as [|? ? Hk Ht]; subst. destruct (keq k k1) eqn:E; simpl.
    + now constructor.
    + constructor; [|now apply IH].
      intro Hin. apply dict_set_keys_incl in Hin as [<-|Hin]; [|contradiction].
      rewrite (proj2 (keq_eq k k) eq_refl) in E. discriminate.
Qed.

Lemma dict_update_keys_NoDup (items d : dict K V) :
  NoDup (dict_keys d) -> NoDup (dict_keys (dict_update keq d items)).
Proof.
  unfold dict_update. revert d; induction items as [|[k1 v1] t IH]; intros d H; simpl.
  - assumption.
  - apply IH. now apply dict_set_keys_NoDup.
Qed.

Lemma dict_get_absent (d : dict K V) (k : K) :
  ~ In k (dict_keys d) -> dict_get keq d k = None.
Proof.
  intro H. destruct (dict_get keq d k) as [v|] eqn:E; [|reflexivity].
  exfalso. apply H. apply (dict_has_In keq keq_eq). unfold dict_has. now rewrite E.
Qed.

Lemma dict_get_entry (d : dict K V) (k : K) (v : V) :
  NoDup (dict_keys d) -> In (k, v) d -> dict_get keq d k = Some v.
Proof.
  induction d as [|[k1 v1] t IH]; simpl; intros H Hin; [destruct Hin|].
  inversion H as [|? ? Hk Ht]; subst. destruct Hin as [[= -> ->]|Hin].
  - now rewrite (proj2 (keq_eq k k) eq_refl).
  - destruct (keq k k1) eqn:E; [|now apply IH].
    apply keq_eq in E. subst. exfalso. apply Hk.
    unfold dict_keys. apply in_map_iff. now exists (k1, v).
Qed.

(** [(d | items)[k]] is [items[k]] when [items] has [k], else [d[k]]. *)
Lemma dict_get_update (items d : dict K V) (k : K) :
  NoDup (dict_keys items) ->
  dict_get keq (dict_update keq d items) k
  = match dict_get keq items k with
    | Some v => Some v
    | None => dict_get keq d k
    end.
Proof.
  unfold dict_update. revert d; induction items as [|[k1 v1] t IH]; intros d H.
  - reflexivity.
  - inversion H as [|? ? Hk Ht]; subst. simpl fold_left. rewrite (IH _ Ht).
    simpl dict_get. rewrite (dict_get_set keq keq_eq).
    destruct (keq k k1) eqn:E; [|reflexivity].
    apply keq_eq in E. subst. now rewrite (dict_get_absent t k1 Hk).
Qed.
End DictKeys.

Lemma ws_pieces_nospace (s : pystr) :
  Forall (fun c => is_space c = false) (fst (ws_pieces s)) /\
  Forall (Forall (fun c => is_space c = false)) (snd (ws_pieces s)).
Proof.
  induction s as [|x s [IHh IHr]]; simpl; [split; constructor|].
  destruct (ws_pieces s) as [h r]. simpl in *.
  destruct (is_space x) eqn:E; simpl; split; try assumption.
  - constructor.
  - destruct h; simpl; [assumption|now constructor].
  - now constructor.
Qed.

Lemma str_split_ws_nospace (s t : pystr) (c : N) :
  In t (str_split_ws s) -> In c t -> is_space c = false.
Proof.
  unfold str_split_ws. pose proof (ws_pieces_nospace s) as [Hh Hr].
  destruct (ws_pieces s) as [h r]. simpl in *. intros Ht Hc.
  assert (F : Forall (fun c => is_space c = false) t).
  { destruct h; simpl in Ht.
    - rewrite Forall_forall in Hr. now apply Hr.
    - destruct Ht as [<-|Ht]; [assumption|]. rewrite Forall_forall in Hr. now apply Hr. }
  rewrite Forall_forall in F. now apply F.
Qed.

Lemma hint_line_token_ok (raw var : pystr) :
  In var (str_split_ws (multi_replace raw PATTERNS)) -> token_ok var.
Proof.
  intros Hv c Hc. split; [exact (str_split_ws_nospace _ _ _ Hv Hc)|].
  destruct (existsb (N.eqb c) PATTERNS) eqn:E; [|reflexivity].
  exfalso. apply existsb_exists in E as [p [Hp Hcp]]. apply N.eqb_eq in Hcp. subst p.
  apply (multi_replace_removes raw c Hp). exact (str_split_ws_incl _ _ Hv c Hc).
Qed.

Lemma piece_sanitized (var name : pystr) :
  token_ok var -> In name (str_split DOT var) -> sanitized name.
Proof.
  intros Hv Hn. unfold sanitized. apply forallb_forall. intros c Hc.
  destruct (Hv c (str_split_piece_incl _ _ _ Hn c Hc)) as [Hs Hp].
  unfold name_char. rewrite Hs, Hp. simpl. rewrite andb_true_r.
  apply negb_true_iff, N.eqb_neq. intros ->.
  pose proof (str_split_pieces_free DOT var) as F. rewrite Forall_forall in F.
  exact (F name Hn Hc).
Qed.

Lemma buckets_ok_write (b : buckets) (d : direction) (name : pystr) (v : set_shape) :
  buckets_ok b -> sanitized name -> set_shape_ok v ->
  buckets_ok (with_bucket b d (dict_set str_eqb (bucket_of b d) name v)).
Proof.
  intros Hb Hn Hv d'.
  assert (H : NoDup (dict_keys (dict_set str_eqb (bucket_of b d) name v)) /\
              Forall sanitized (dict_keys (dict_set str_eqb (bucket_of b d) name v)) /\
              Forall set_shape_ok (dict_values (dict_set str_eqb (bucket_of b d) name v))).
  { destruct (Hb d) as (H1 & H2 & H3). rewrite Forall_forall in H2, H3. repeat split.
    - now apply (dict_set_keys_NoDup str_eqb str_eqb_eq).
    - apply Forall_forall. intros x Hx.
      apply dict_set_keys_incl in Hx as [<-|Hx]; auto.
    - apply Forall_forall. intros x Hx.
      apply dict_set_values_incl in Hx as [<-|Hx]; auto. }
  destruct d, d'; simpl; try exact H;
    first [exact (Hb Inout) | exact (Hb Input) | exact (Hb Output)].
Qed.

Lemma set_add_ok (field : pystr) (s : list pystr) :
  sanitized field -> set_shape_ok (SSet s) -> set_shape_ok (SSet (set_add str_eqb field s)).
Proof.
  intros Hf (Hne & Hnd & Hs). simpl. repeat split.
  - intro E. assert (Hin : In field (set_add str_eqb field s))
      by (apply (set_add_In str_eqb str_eqb_eq); now left).
    rewrite E in Hin. destruct Hin.
  - now apply (set_add_NoDup str_eqb str_eqb_eq).
  - apply Forall_forall. intros x Hx. rewrite Forall_forall in Hs.
    apply (set_add_In str_eqb str_eqb_eq) in Hx as [->|Hx]; auto.
Qed.

Lemma classify_var_ok (line : pystr) (b b' : buckets) (var : pystr) :
  token_ok var -> buckets_ok b -> classify_var line b var = Some b' -> buckets_ok b'.
Proof.
  intros Hv Hb. unfold classify_var. set (d := dict_to_insert line var).
  destruct (str_split DOT var) as [|h [|name rest]] eqn:E; simpl; try discriminate.
  assert (Hname : sanitized name).
  { apply (piece_sanitized var); [assumption|]. rewrite E. right. now left. }
  destruct (var_in_pack line name).
  - intros [= <-]. apply buckets_ok_write; [assumption..|].
    simpl. repeat split; [discriminate| |repeat constructor; vm_compute; reflexivity].
    repeat constructor; simpl; intuition discriminate.
  - destruct rest as [|field rest]; simpl.
    + intros [= <-]. now apply buckets_ok_write.
    + assert (Hfield : sanitized field).
      { apply (piece_sanitized var); [assumption|]. rewrite E. right. right. now left. }
      assert (Hone : set_shape_ok (SSet [field])).
      { simpl. repeat split; [discriminate| |now repeat constructor].
        repeat constructor. intros []. }
      destruct (dict_get str_eqb (bucket_of b d) name) as [[|s]|] eqn:G;
        intros [= <-]; apply buckets_ok_write; try assumption.
      apply set_add_ok; [assumption|].
      apply (dict_get_In str_eqb str_eqb_eq) in G.
      destruct (Hb d) as (_ & _ & H3). rewrite Forall_forall in H3. apply H3.
      unfold dict_values. apply in_map_iff. now exists (name, SSet s).
Qed.

Lemma scan_ok (hint_code : pystr) (b : buckets) :
  scan hint_code = Some b -> buckets_ok b.
Proof.
  unfold scan.
  apply (foldM_invariant buckets_ok (fun line => exists raw, line = multi_replace raw PATTERNS)).
  - intros s line s' [raw ->] Hs. unfold classify_line.
    apply (foldM_invariant buckets_ok token_ok).
    + intros s0 var s1 Hvar Hs0. now apply classify_var_ok.
    + apply Forall_forall. intros var Hvar. apply filter_In in Hvar as [Hvar _].
      now apply (hint_line_token_ok raw).
    + assumption.
  - unfold hint_lines. apply Forall_forall. intros line H.
    apply in_map_iff in H as [raw [<- _]]. now exists raw.
  - intros d. destruct d; simpl; repeat split; constructor.
Qed.

Lemma freeze_ok (FO : SetOrder pystr) (v : set_shape) :
  set_shape_ok v -> shape_ok (freeze FO v).
Proof.
  destruct v as [|s]; simpl; [trivial|]. intros (Hne & Hnd & Hs).
  pose proof (iter_order_perm FO s Hnd) as P. repeat split.
  - intro E. rewrite E in P. apply Permutation_nil in P. contradiction.
  - apply (Permutation_NoDup (Permutation_sym P) Hnd).
  - apply (Permutation_Forall (Permutation_sym P) Hs).
Qed.

Lemma freeze_dict_values_ok (FO : SetOrder pystr) (d : dict pystr set_shape) :
  Forall set_shape_ok (dict_values d) -> Forall shape_ok (dict_values (freeze_dict FO d)).
Proof.
  unfold dict_values, freeze_dict. rewrite map_map. simpl.
  induction d as [|[k v] t IH]; simpl; intro H; inversion H; subst; constructor.
  - now apply freeze_ok.
  - now apply IH.
Qed.

Lemma classify_variables_invariant (FO : SetOrder pystr) (hint_code : pystr) :
  exists i o io,
    classify_variables FO hint_code = Some (i, o, io) /\
    (NoDup (dict_keys i) /\ NoDup (dict_keys o) /\ NoDup (dict_keys io)) /\
    Forall sanitized (dict_keys i ++ dict_keys o ++ dict_keys io) /\
    Forall shape_ok (dict_values i ++ dict_values o ++ dict_values io).
Proof.
  unfold classify_variables. destruct (scan_total hint_code) as [b Hb]. rewrite Hb.
  pose proof (scan_ok hint_code b Hb) as H.
  destruct (H Input) as (N1 & S1 & V1), (H Output) as (N2 & S2 & V2),
           (H Inout) as (N3 & S3 & V3). simpl in *.
  do 3 eexists. split; [reflexivity|]. split; [|split].
  - rewrite !dict_keys_freeze. repeat split; try assumption.
    apply (dict_update_keys_NoDup str_eqb str_eqb_eq). now rewrite dict_keys_freeze.
  - rewrite !dict_keys_freeze. rewrite !Forall_app. repeat split; try assumption.
    apply Forall_forall. intros x Hx.
    apply (dict_update_keys_incl str_eqb) in Hx. rewrite !dict_keys_freeze in Hx.
    rewrite Forall_forall in S1, S3. apply in_app_or in Hx as [Hx|Hx]; auto.
  - apply (freeze_dict_values_ok FO) in V1, V2, V3.
    rewrite !Forall_app. repeat split; try assumption.
    apply Forall_forall. intros x Hx.
    apply (dict_update_values_incl str_eqb) in Hx.
    rewrite Forall_forall in V1, V3. apply in_app_or in Hx as [Hx|Hx]; auto.
Qed.

(** X8.  Every name in the three mappings [classify_variables] returns is
    sanitized: it holds no white space, no dot and none of the characters
    blanked at line 65. *)
Theorem classified_names_sanitized (FO : SetOrder pystr) (hint_code : pystr) :
  exists i o io,
    classify_variables FO hint_code = Some (i, o, io) /\
    Forall sanitized (dict_keys i ++ dict_keys o ++ dict_keys io).
Proof.
  destruct (classify_variables_invariant FO hint_code) as (i & o & io & H & _ & Hs & _).
  now exists i, o, io.
Qed.

(** X9.  Every shape in the three mappings [classify_variables] returns is the
    scalar or a tuple of sanitized field names that is not empty and names
    no field twice. *)
Theorem classified_shapes_well_formed (FO : SetOrder pystr) (hint_code : pystr) :
  exists i o io,
    classify_variables FO hint_code = Some (i, o, io) /\
    Forall shape_ok (dict_values i ++ dict_values o ++ dict_values io).
Proof.
  destruct (classify_variables_invariant FO hint_code) as (i & o & io & H & _ & _ & Hv).
  now exists i, o, io.
Qed.

Lemma classify_keys_NoDup (FO : SetOrder pystr) (hint_code : pystr)
    (i o io : dict pystr shape) :
  classify_variables FO hint_code = Some (i, o, io) ->
  NoDup (dict_keys i) /\ NoDup (dict_keys o) /\ NoDup (dict_keys io).
Proof.
  intro H. destruct (classify_variables_invariant FO hint_code) as (i' & o' & io' & H' & Hn & _).
  rewrite H in H'. now injection H' as <- <- <-.
Qed.

Lemma inout_lookup_in_input (FO : SetOrder pystr) (hint_code : pystr)
    (i o io : dict pystr shape) (name : pystr) (v : shape) :
  classify_variables FO hint_code = Some (i, o, io) ->
  dict_get str_eqb io name = Some v ->
  dict_get str_eqb i name = Some v.
Proof.
  intros H Hio. destruct (classify_keys_NoDup FO hint_code i o io H) as (_ & _ & Hn).
  unfold classify_variables in H. destruct (scan hint_code) as [b|]; [|discriminate].
  injection H as <- <- <-. unfold dict_union.
  rewrite (dict_get_update str_eqb str_eqb_eq) by assumption. now rewrite Hio.
Qed.

(** X10.  Every Inout variable is also in the Input mapping that is returned,
    with the shape it has in Inout. *)
Theorem inout_is_input (FO : SetOrder pystr) (hint_code : pystr)
    (i o io : dict pystr shape) (name : pystr) (v : shape) :
  classify_variables FO hint_code = Some (i, o, io) ->
  dict_get str_eqb io name = Some v ->
  dict_get str_eqb i name = Some v.
Proof. apply inout_lookup_in_input. Qed.

(** X10 at a concrete input. *)
Lemma inout_is_input_witness :
  dict_get str_eqb [(py "b", Felt); (py "c", Tuple [py "x"])] (py "c")
  = Some (Tuple [py "x"]).
Proof.
  apply (inout_is_input (insertion_order pystr) hint_output_only
           _ [(py "a", Felt)] [(py "c", Tuple [py "x"])]); vm_compute; reflexivity.
Defined.

(** ** No qualified token is dropped *)

Lemma foldM_establish {S A : Type} (P : S -> Prop) (f : S -> A -> option S) (x : A) :
  (forall s y s', f s y = Some s' -> P s -> P s') ->
  (forall s s', f s x = Some s' -> P s') ->
  forall l s r, In x l -> foldM f l s = Some r -> P r.
Proof.
  intros Hkeep Hset l. induction l as [|a l IH]; intros s r Hin H; [destruct Hin|].
  simpl in H. destruct (f s a) as [s'|] eqn:E; [|discriminate].
  destruct Hin as [->|Hin].
  - apply (foldM_invariant P (fun _ => True) f) with (l := l) (s := s').
    + intros s0 y s1 _ Hs0 Hstep. now apply (Hkeep s0 y).
    + apply Forall_forall. trivial.
    + now apply (Hset s).
    + assumption.
  - now apply (IH s').
Qed.

Lemma classify_var_writes_name (line : pystr) (b b' : buckets) (var : pystr) :
  classify_var line b var = Some b' ->
  exists name v,
    nth_error (str_split DOT var) 1 = Some name /\
    b' = with_bucket b (dict_to_insert line var)
           (dict_set str_eqb (bucket_of b (dict_to_insert line var)) name v).
Proof.
  unfold classify_var. set (d := dict_to_insert line var).
  destruct (str_split DOT var) as [|h [|name rest]] eqn:E; simpl; try discriminate.
  destruct (var_in_pack line name).
  - intros [= <-]. exists name. eexists. split; reflexivity.
  - destruct rest as [|field rest]; simpl.
    + intros [= <-]. exists name. eexists. split; reflexivity.
    + destruct (dict_get str_eqb (bucket_of b d) name) as [[|s]|];
        intros [= <-]; exists name; eexists; (split; reflexivity).
Qed.

Lemma bucket_of_with_bucket (b : buckets) (d d' : direction) (x : dict pystr set_shape)
    (name : pystr) :
  dict_has str_eqb (bucket_of b d') name = true ->
  dict_has str_eqb x name = dict_has str_eqb (bucket_of b d) name || dict_has str_eqb x name ->
  dict_has str_eqb (bucket_of (with_bucket b d x) d') name = true.
Proof.
  intros H Hx. destruct d, d'; simpl in *; try assumption;
    rewrite Hx, H; reflexivity.
Qed.

Lemma classify_var_keeps (name : pystr) (line : pystr) (b b' : buckets) (var : pystr) :
  classify_var line b var = Some b' ->
  (exists d, dict_has str_eqb (bucket_of b d) name = true) ->
  exists d, dict_has str_eqb (bucket_of b' d) name = true.
Proof.
  intros H [d' Hd]. apply classify_var_writes in H as (n & v & _ & ->).
  exists d'. apply bucket_of_with_bucket; [assumption|].
  rewrite (dict_has_set str_eqb str_eqb_eq).
  destruct (dict_has str_eqb (bucket_of b (dict_to_insert line var)) name);
    [now rewrite orb_true_r|reflexivity].
Qed.

(** X11.  Every token holding [ids.] on a line holding [ids.] has its name, the
    piece between its first and second dot, in the Input or in the Output
    mapping that is returned. *)
Theorem every_token_classified (FO : SetOrder pystr) (hint_code raw var : pystr)
    (i o io : dict pystr shape) :
  In raw (str_split NL hint_code) ->
  contains (py "ids.") raw = true ->
  In var (str_split_ws (multi_replace raw PATTERNS)) ->
  contains (py "ids.") var = true ->
  classify_variables FO hint_code = Some (i, o, io) ->
  exists name,
    nth_error (str_split DOT var) 1 = Some name /\
    (dict_has str_eqb i name = true \/ dict_has str_eqb o name = true).
Proof.
  intros Hraw Hids Hvar Hv Hc.
  assert (Hd : In DOT var) by (apply (contains_In _ _ _ Hv); simpl; unfold DOT; tauto).
  destruct (str_split_two DOT var Hd) as (h & name & rest & E).
  exists name. split; [now rewrite E|].
  destruct (scan hint_code) as [b|] eqn:Hs;
    [|unfold classify_variables in Hc; rewrite Hs in Hc; discriminate].
  pose (Q := fun b : buckets => exists d, dict_has str_eqb (bucket_of b d) name = true).
  assert (P : Q b).
  { unfold scan in Hs.
    apply (foldM_establish Q classify_line (multi_replace raw PATTERNS))
      with (l := hint_lines hint_code) (s := empty_buckets).
    - intros s line s' Hstep Hp. unfold classify_line in Hstep.
      apply (foldM_invariant Q (fun _ => True) (classify_var line)) with (3 := Hp) (4 := Hstep).
      + intros s0 y s1 _ Hs0 Hy. now apply (classify_var_keeps name line s0 s1 y).
      + apply Forall_forall. trivial.
    - intros s s' Hstep. unfold classify_line in Hstep.
      apply (foldM_establish Q (classify_var (multi_replace raw PATTERNS)) var)
        with (4 := Hstep).
      + intros s0 y s1 Hy Hs0.
        now apply (classify_var_keeps name (multi_replace raw PATTERNS) s0 s1 y).
      + intros s0 s1 Hy. apply classify_var_writes_name in Hy as (n & v & Hn & ->).
        rewrite E in Hn. injection Hn as <-.
        exists (dict_to_insert (multi_replace raw PATTERNS) var).
        destruct (dict_to_insert _ var); simpl; unfold dict_has;
          now rewrite (dict_get_set str_eqb str_eqb_eq), str_eqb_refl.
      + apply filter_In. now split.
    - unfold hint_lines. apply in_map_iff. exists raw. split; [reflexivity|].
      apply filter_In. now split.
    - assumption. }
  unfold Q in P.
  destruct (merged_input_names FO hint_code b i o io name Hs Hc) as (Hi & Ho & Hio).
  destruct P as [[| |] Hp]; simpl in Hp.
  - left. now rewrite Hi, Hio, Hp, orb_true_r.
  - left. now rewrite Hi, Hp.
  - right. now rewrite Ho.
Qed.

(** X11 at a concrete input. *)
Lemma every_token_classified_witness :
  exists name,
    nth_error (str_split DOT (py "ids.b.x")) 1 = Some name /\
    (dict_has str_eqb [(py "b", Tuple [py "x"; py "y"])] name = true \/
     dict_has str_eqb [(py "a", Felt)] name = true).
Proof.
  apply (every_token_classified (insertion_order pystr) hint_sum hint_sum (py "ids.b.x")
           _ _ []); try (vm_compute; reflexivity).
  - vm_compute. now left.
  - vm_compute. right. right. now left.
Defined.

(** ** The table of type names *)

Lemma py_inj (a b : string) : py a = py b -> a = b.
Proof.
  unfold py. intro H.
  assert (E : list_ascii_of_string a = list_ascii_of_string b).
  { apply (f_equal (map ascii_of_N)) in H. rewrite !map_map in H.
    rewrite !(map_ext _ (fun x => x) ascii_N_embedding), !map_id in H. exact H. }
  rewrite <- (string_of_list_ascii_of_string a), E.
  apply string_of_list_ascii_of_string.
Qed.

Lemma str_of_nat_inj (m n : nat) : str_of_nat m = str_of_nat n -> m = n.
Proof.
  unfold str_of_nat. intro H. apply py_inj in H.
  assert (E : Nat.to_uint m = Nat.to_uint n).
  { apply (f_equal NilEmpty.uint_of_string) in H. rewrite !NilEmpty.usu in H. congruence. }
  rewrite <- (Unsigned.of_to m), E. apply Unsigned.of_to.
Qed.

Section DictFresh.
Context {K V : Type} (keq : K -> K -> bool).
Hypothesis keq_eq : forall a b, keq a b = true <-> a = b.

Lemma dict_set_fresh (d : dict K V) (k : K) (v : V) :
  ~ In k (dict_keys d) -> dict_set keq d k v = d ++ [(k, v)].
Proof.
  induction d as [|[k1 v1] t IH]; simpl; intro H; [reflexivity|].
  destruct (keq k k1) eqn:E.
  - apply keq_eq in E. subst. exfalso. apply H. now left.
  - rewrite IH; [reflexivity|]. intro Hin. apply H. now right.
Qed.

Lemma dict_update_fresh (items d : dict K V) :
  NoDup (dict_keys d ++ dict_keys items) -> dict_update keq d items = d ++ items.
Proof.
  unfold dict_update. revert d; induction items as [|[k1 v1] t IH]; intros d H; simpl.
  - now rewrite app_nil_r.
  - simpl in H. rewrite dict_set_fresh.
    + rewrite IH; [now rewrite <- app_assoc|].
      unfold dict_keys in *. rewrite map_app. simpl. now rewrite <- app_assoc.
    + apply NoDup_remove_2 in H. intro Hin. apply H. apply in_or_app. now left.
Qed.
End DictFresh.

Lemma enumerate_values_NoDup (f : nat * shape -> bool) (l : list shape) (n : nat) :
  NoDup l -> NoDup (map snd (filter f (combine (seq n (length l)) l))).
Proof.
  revert n; induction l as [|x l IH]; intros n H; simpl; [constructor|].
  inversion H as [|? ? Hx Hl]; subst.
  destruct (f (n, x)); simpl; [|now apply IH].
  constructor; [|now apply IH]. intro Hin.
  apply in_map_iff in Hin as [[k y] [Hy Hin]]. simpl in Hy. subst y.
  apply filter_In in Hin as [Hin _]. apply in_combine_r in Hin. contradiction.
Qed.

Lemma enumerate_functional (l : list shape) (n k : nat) (a b : shape) :
  In (k, a) (combine (seq n (length l)) l) ->
  In (k, b) (combine (seq n (length l)) l) -> a = b.
Proof.
  revert n; induction l as [|x l IH]; intros n Ha Hb; [destruct Ha|].
  simpl in Ha, Hb. destruct Ha as [Ha|Ha], Hb as [Hb|Hb].
  - congruence.
  - injection Ha as -> _. apply in_combine_l, in_seq in Hb. lia.
  - injection Hb as -> _. apply in_combine_l, in_seq in Ha. lia.
  - now apply (IH (S n)).
Qed.

(** With distinct shapes in [fields], [structs_dict] is the list of the
    shapes other than the scalar, each with [MyStruct] and its position in
    the enumeration, followed by the entry of the scalar. *)
Lemma structs_dict_from_explicit (fields : list shape) :
  NoDup fields ->
  structs_dict_from fields
  = map (fun iv => (snd iv, py "MyStruct" ++ str_of_nat (fst iv)))
        (filter (fun iv => negb (shape_eqb (snd iv) Felt))
                (combine (seq 0 (length fields)) fields))
    ++ [(Felt, py "felt")].
Proof.
  intro H. unfold structs_dict_from.
  set (named := map _ _).
  assert (Hk : forall v, In v (dict_keys named) ->
                 In v (map snd (filter (fun iv => negb (shape_eqb (snd iv) Felt))
                                       (combine (seq 0 (length fields)) fields)))).
  { intros v Hv. unfold named, dict_keys in Hv. now rewrite map_map in Hv. }
  rewrite (dict_update_fresh shape_eqb shape_eqb_eq).
  - simpl app. apply (dict_set_fresh shape_eqb shape_eqb_eq).
    intro Hin. apply Hk in Hin. apply in_map_iff in Hin as [[k v] [Hv Hin]].
    simpl in Hv. subst v. apply filter_In in Hin as [_ Hf]. discriminate.
  - simpl app. unfold named, dict_keys. rewrite map_map. cbn [fst snd].
    now apply (enumerate_values_NoDup _ fields 0).
Qed.

Lemma fields_of_NoDup (SO : SetOrder shape) (i o : dict pystr shape) :
  NoDup (fields_of SO i o).
Proof.
  unfold fields_of.
  pose proof (set_of_list_NoDup shape_eqb shape_eqb_eq
                (dict_values (dict_union str_eqb i o))) as H.
  exact (Permutation_NoDup (Permutation_sym (iter_order_perm SO _ H)) H).
Qed.

Lemma structs_dict_entry (fields : list shape) (v : shape) (name : pystr) :
  NoDup fields ->
  dict_get shape_eqb (structs_dict_from fields) v = Some name ->
  (v = Felt /\ name = py "felt") \/
  (exists k, v <> Felt /\ In (k, v) (combine (seq 0 (length fields)) fields) /\
             name = py "MyStruct" ++ str_of_nat k).
Proof.
  intros H G. apply (dict_get_In shape_eqb shape_eqb_eq) in G.
  rewrite (structs_dict_from_explicit fields H) in G.
  apply in_app_or in G as [G|[[= <- <-]|[]]]; [right|left; now split].
  apply in_map_iff in G as [[k x] [[= <- <-] G]].
  apply filter_In in G as [G Hf]. exists k. repeat split; try assumption.
  intros ->. discriminate Hf.
Qed.

(** X12.  In the table of one program, two shapes with the same type name are the
    same shape, and only the scalar has the name [felt]. *)
Theorem type_names_injective (SO : SetOrder shape) (i o : dict pystr shape)
    (v1 v2 : shape) (name : pystr) :
  dict_get shape_eqb (structs_dict_of SO i o) v1 = Some name ->
  dict_get shape_eqb (structs_dict_of SO i o) v2 = Some name ->
  v1 = v2 /\ (name = py "felt" <-> v1 = Felt).
Proof.
  unfold structs_dict_of. intros H1 H2.
  pose proof (fields_of_NoDup SO i o) as Hn.
  apply (structs_dict_entry _ _ _ Hn) in H1, H2.
  destruct H1 as [[-> ->]|(k1 & Hv1 & Hk1 & ->)], H2 as [[-> E]|(k2 & Hv2 & Hk2 & E)].
  - split; [reflexivity|tauto].
  - discriminate E.
  - discriminate E.
  - apply app_inv_head, str_of_nat_inj in E. subst k2.
    split; [exact (enumerate_functional _ _ _ _ _ Hk1 Hk2)|].
    split; [discriminate|contradiction].
Qed.

(** X12 at a concrete input. *)
Lemma type_names_injective_witness :
  Tuple [py "x"; py "y"] = Tuple [py "x"; py "y"] /\
  (py "MyStruct0" = py "felt" <-> Tuple [py "x"; py "y"] = Felt).
Proof.
  apply (type_names_injective (insertion_order shape)
           [(py "b", Tuple [py "x"; py "y"])] [(py "a", Felt)]);
    vm_compute; reflexivity.
Defined.

Lemma type_names_felt_only (SO : SetOrder shape) (i o : dict pystr shape)
    (v : shape) :
  dict_get shape_eqb (structs_dict_of SO i o) v = Some (py "felt") -> v = Felt.
Proof.
  unfold structs_dict_of. intro H.
  apply (structs_dict_entry _ _ _ (fields_of_NoDup SO i o)) in H.
  destruct H as [[-> _]|(k & _ & _ & E)]; [reflexivity|discriminate E].
Qed.

(** ** When a program is produced *)

Lemma foldM_each {S A : Type} (f : S -> A -> option S) (l : list A) (s r : S) (x : A) :
  foldM f l s = Some r -> In x l -> exists s1 s2, f s1 x = Some s2.
Proof.
  revert s; induction l as [|a l IH]; intros s H Hin; [destruct Hin|].
  simpl in H. destruct (f s a) as [s'|] eqn:E; [|discriminate].
  destruct Hin as [->|Hin]; [now exists s, s'|now apply (IH s')].
Qed.

Lemma structs_dict_of_lookup_iff (SO : SetOrder shape) (i o : dict pystr shape) (v : shape) :
  (exists name, dict_get shape_eqb (structs_dict_of SO i o) v = Some name) <->
  v = Felt \/ In v (dict_values (dict_union str_eqb i o)).
Proof.
  split.
  - intros [name H]. unfold structs_dict_of in H.
    apply (structs_dict_entry _ _ _ (fields_of_NoDup SO i o)) in H.
    destruct H as [[-> _]|(k & _ & Hk & _)]; [now left|right].
    apply in_combine_r in Hk. unfold fields_of in Hk.
    apply (proj1 (iter_order_In SO _ v (set_of_list_NoDup shape_eqb shape_eqb_eq _))) in Hk.
    exact (proj1 (set_of_list_In shape_eqb shape_eqb_eq _ v) Hk).
  - intros [->|H].
    + apply structs_dict_from_lookup. now left.
    + now apply structs_dict_of_lookup.
Qed.

Lemma dict_union_values_right (i o : dict pystr shape) (v : shape) :
  NoDup (dict_keys o) -> In v (dict_values o) -> In v (dict_values (dict_union str_eqb i o)).
Proof.
  intros Hn Hv. unfold dict_values in Hv. apply in_map_iff in Hv as [[k x] [Hx Hin]].
  simpl in Hx. subst x.
  assert (G : dict_get str_eqb (dict_union str_eqb i o) k = Some v).
  { unfold dict_union. rewrite (dict_get_update str_eqb str_eqb_eq) by assumption.
    now rewrite (dict_get_entry str_eqb str_eqb_eq o k v Hn Hin). }
  apply (dict_get_In str_eqb str_eqb_eq) in G.
  unfold dict_values. apply in_map_iff. now exists (k, v).
Qed.

Lemma assemble_defined (SO : SetOrder shape) (hint_code : pystr) (i o io : dict pystr shape) :
  (forall v, In v (dict_values i ++ dict_values o ++ dict_values io) ->
             exists name, dict_get shape_eqb (structs_dict_of SO i o) v = Some name) ->
  exists out, assemble SO hint_code i o io = Some out.
Proof.
  intro H. unfold assemble.
  destruct (main_func_of_total (structs_dict_of SO i o) i) as [main_func ->].
  { intros v Hv. apply H. apply in_or_app. now left. }
  unfold hint_func_of, signature_of.
  destruct (hint_input_vars_total (structs_dict_of SO i o) i) as [params ->].
  { intros v Hv. apply H. apply in_or_app. now left. }
  destruct (mapM_total (dict_get shape_eqb (structs_dict_of SO i o))
              (dict_values (dict_union str_eqb o io))) as [types ->].
  { intros v Hv. apply H. apply (dict_update_values_incl str_eqb) in Hv.
    apply in_or_app. right. exact Hv. }
  destruct (mapM_total (local_declare (structs_dict_of SO i o)) o) as [locals ->].
  { intros [name v] Hin. unfold local_declare. simpl.
    destruct (H v) as [n ->]; [|now eexists].
    apply in_or_app. right. apply in_or_app. left.
    unfold dict_values. apply in_map_iff. now exists (name, v). }
  destruct (length (dict_union str_eqb o io) =? 1)%nat; now eexists.
Qed.

(** X13.  After classification, a program is produced exactly when every tuple
    shape of an Input variable is the shape of some variable of
    Input | Output; otherwise the lookup in [structs_dict] fails. *)
Theorem generate_defined_iff (SO : SetOrder shape) (FO : SetOrder pystr)
    (hint_code : pystr) (i o io : dict pystr shape) :
  classify_variables FO hint_code = Some (i, o, io) ->
  (exists out, generate_cairo_hint_program SO FO hint_code = Some out) <->
  (forall name fs, In (name, Tuple fs) i ->
                   In (Tuple fs) (dict_values (dict_union str_eqb i o))).
Proof.
  intro Hc. unfold generate_cairo_hint_program. rewrite Hc. split.
  - intros [out H] name fs Hin. unfold assemble in H.
    destruct (main_func_of (structs_dict_of SO i o) i) as [main_func|] eqn:Hm; [|discriminate].
    unfold main_func_of in Hm.
    destruct (foldM (main_var_assignment (structs_dict_of SO i o)) i []) as [acc|] eqn:Hf;
      [|discriminate].
    destruct (foldM_each _ _ _ _ _ Hf Hin) as (s1 & s2 & Hstep).
    unfold main_var_assignment in Hstep.
    destruct (dict_get shape_eqb (structs_dict_of SO i o) (Tuple fs)) as [n|] eqn:G;
      [|discriminate].
    destruct (proj1 (structs_dict_of_lookup_iff SO i o (Tuple fs))) as [E|E];
      [now exists n|discriminate E|exact E].
  - intro H. apply assemble_defined.
    destruct (classify_keys_NoDup FO hint_code i o io Hc) as (_ & Hno & Hnio).
    assert (Hi : forall v, In v (dict_values i) ->
                   exists name, dict_get shape_eqb (structs_dict_of SO i o) v = Some name).
    { intros v Hv. apply structs_dict_of_lookup_iff.
      unfold dict_values in Hv. apply in_map_iff in Hv as [[name x] [Hx Hin]].
      simpl in Hx. subst x. destruct v as [|fs]; [now left|right].
      now apply (H name). }
    intros v Hv. apply in_app_or in Hv as [Hv|Hv]; [now apply Hi|].
    apply in_app_or in Hv as [Hv|Hv].
    + apply structs_dict_of_lookup_iff. right. now apply dict_union_values_right.
    + apply Hi. unfold dict_values in Hv. apply in_map_iff in Hv as [[name x] [Hx Hin]].
      simpl in Hx. subst x.
      pose proof (dict_get_entry str_eqb str_eqb_eq io name v Hnio Hin) as G.
      apply (inout_lookup_in_input FO hint_code i o io name v Hc) in G.
      apply (dict_get_In str_eqb str_eqb_eq) in G.
      unfold dict_values. apply in_map_iff. now exists (name, v).
Qed.

(** X13 at a concrete input. *)
Lemma generate_defined_iff_witness :
  (exists out,
     generate_cairo_hint_program (insertion_order shape) (insertion_order pystr) hint_shadowed
     = Some out) <->
  (forall name fs, In (name, Tuple fs) [(py "a", Tuple [py "y"])] ->
     In (Tuple fs)
        (dict_values (dict_union str_eqb [(py "a", Tuple [py "y"])] [(py "a", Tuple [py "x"])]))).
Proof.
  apply (generate_defined_iff (insertion_order shape) (insertion_order pystr) hint_shadowed
           _ _ [(py "a", Tuple [py "y"])]).
  vm_compute. reflexivity.
Defined.

(** ** The lines of the program *)

Lemma sanitized_nlfree (s : pystr) : sanitized s -> nlfree s.
Proof.
  unfold sanitized, nlfree. intros H Hin. rewrite forallb_forall in H.
  apply H in Hin. discriminate Hin.
Qed.

Lemma classify_invariant_of (FO : SetOrder pystr) (hint_code : pystr)
    (i o io : dict pystr shape) :
  classify_variables FO hint_code = Some (i, o, io) ->
  Forall sanitized (dict_keys i ++ dict_keys o ++ dict_keys io) /\
  Forall shape_ok (dict_values i ++ dict_values o ++ dict_values io).
Proof.
  intro H. destruct (classify_variables_invariant FO hint_code) as (i' & o' & io' & H' & _ & Hs).
  rewrite H in H'. now injection H' as <- <- <-.
Qed.

Lemma shape_iter_nlfree (v : shape) : shape_ok v -> Forall nlfree (shape_iter v).
Proof.
  destruct v as [|fs]; simpl.
  - intros _. repeat constructor; nl_text.
  - intros (_ & _ & H). apply Forall_forall. intros x Hx. rewrite Forall_forall in H.
    now apply sanitized_nlfree, H.
Qed.

Lemma split_join_lines (l : list pystr) :
  Forall nlfree l ->
  str_split NL (str_join [NL] l) = match l with [] => [[]] | _ :: _ => l end.
Proof.
  induction 1 as [|x l Hx Hl IH]; [reflexivity|].
  destruct l as [|y l].
  - simpl. now apply str_split_free.
  - change (str_join [NL] (x :: y :: l)) with (x ++ NL :: str_join [NL] (y :: l)).
    rewrite (str_split_head _ _ Hx), IH. reflexivity.
Qed.

Lemma split_joined_texts (l : list pystr) :
  l <> [] -> str_split NL (str_join [NL] l) = concat (map (str_split NL) l).
Proof.
  induction l as [|x l IH]; intro H; [contradiction|].
  destruct l as [|y l].
  - simpl. now rewrite app_nil_r.
  - change (str_join [NL] (x :: y :: l)) with (x ++ NL :: str_join [NL] (y :: l)).
    rewrite str_split_app, IH by discriminate. reflexivity.
Qed.

Lemma main_var_assignment_let (sd : dict shape pystr) (acc acc' : pystr)
    (item : pystr * shape) :
  main_var_assignment sd acc item = Some acc' ->
  exists l, let_line sd item = Some l /\ acc' = acc ++ NL :: l.
Proof.
  destruct item as [name v]. unfold main_var_assignment, let_line. cbn [fst snd].
  destruct (dict_get shape_eqb sd v) as [struct_name|]; [|discriminate].
  destruct (str_eqb struct_name (py "felt")); intro H; apply Some_inj in H; subst acc';
    eexists; split; reflexivity.
Qed.

Lemma main_assignments_lines (sd : dict shape pystr) (i : dict pystr shape) (acc0 acc : pystr) :
  foldM (main_var_assignment sd) i acc0 = Some acc ->
  exists lets,
    mapM (let_line sd) i = Some lets /\
    acc = acc0 ++ concat (map (fun l => NL :: l) lets).
Proof.
  revert acc0; induction i as [|item i IH]; intros acc0 H; simpl in H.
  - apply Some_inj in H. subst acc. exists []. split; [reflexivity|].
    simpl. now rewrite app_nil_r.
  - destruct (main_var_assignment sd acc0 item) as [acc1|] eqn:E; [|discriminate].
    apply main_var_assignment_let in E as (l & Hl & ->).
    destruct (IH _ H) as (lets & Hm & ->).
    exists (l :: lets). simpl mapM. rewrite Hl, Hm. split; [reflexivity|].
    simpl. now rewrite <- app_assoc.
Qed.

Lemma split_lets (a tail : pystr) (lets : list pystr) :
  nlfree a -> Forall nlfree lets ->
  str_split NL (a ++ concat (map (fun l => NL :: l) lets) ++ NL :: tail)
  = a :: lets ++ str_split NL tail.
Proof.
  intros Ha Hl. revert a Ha; induction Hl as [|l lets Hl _ IH]; intros a Ha.
  - simpl. now apply str_split_head.
  - assert (E : a ++ concat (map (fun l0 => NL :: l0) (l :: lets)) ++ NL :: tail
               = a ++ NL :: (l ++ concat (map (fun l0 => NL :: l0) lets) ++ NL :: tail))
      by (simpl; now rewrite <- app_assoc).
    rewrite E, (str_split_head _ _ Ha), (IH l Hl). reflexivity.
Qed.

Lemma let_lines_nlfree (fields : list shape) (i : dict pystr shape) (lets : list pystr) :
  Forall nlfree (dict_keys i) -> Forall shape_ok (dict_values i) ->
  mapM (let_line (structs_dict_from fields)) i = Some lets ->
  Forall nlfree lets.
Proof.
  intros Hk Hv H. apply mapM_Forall2 in H. unfold dict_keys, dict_values in *.
  induction H as [|[name v] y l r Hxy _ IH]; [constructor|].
  inversion Hk; inversion Hv; subst. constructor; [|now apply IH].
  unfold let_line in Hxy. cbn [fst snd] in *.
  destruct (dict_get shape_eqb (structs_dict_from fields) v) as [struct_name|] eqn:E;
    [|discriminate].
  apply structs_dict_values_nlfree in E.
  assert (Hj : nlfree (str_join (py ", ")
                 (map (fun field_name => field_name ++ py "=") (shape_iter v)))).
  { apply nlfree_join; [nl_text|]. apply Forall_forall. intros x Hx.
    apply in_map_iff in Hx as [f [<- Hf]].
    pose proof (shape_iter_nlfree v ltac:(assumption)) as F.
    rewrite Forall_forall in F. specialize (F f Hf). nl_text. }
  destruct (str_eqb struct_name (py "felt")); apply Some_inj in Hxy; subst y; nl_text.
Qed.

Lemma Forall_sanitized_nlfree (l : list pystr) : Forall sanitized l -> Forall nlfree l.
Proof. intro H. eapply Forall_impl; [|exact H]. apply sanitized_nlfree. Qed.

(** X15.  When a program is produced, the lines of [main] follow those of the
    declarations: the header, one [let] line per Input variable in the order
    of the mapping, the call of [hint_func] with the Input names, the empty
    return and the closing brace. *)
Theorem main_routine_lines (SO : SetOrder shape) (FO : SetOrder pystr)
    (hint_code : pystr) (out : list pystr) :
  generate_cairo_hint_program SO FO hint_code = Some out ->
  exists i o io lets hint_func,
    classify_variables FO hint_code = Some (i, o, io) /\
    mapM (let_line (structs_dict_of SO i o)) i = Some lets /\
    hint_func_of (structs_dict_of SO i o) hint_code i o io = Some hint_func /\
    out = str_split NL (declared_structs_of (structs_dict_of SO i o)) ++
          (py "func main() {" :: lets ++
           [[TAB] ++ py "hint_func(" ++ str_join (py ", ") (dict_keys i) ++ py ");";
            [TAB] ++ py "return();";
            py "}"]) ++
          str_split NL hint_func.
Proof.
  unfold generate_cairo_hint_program.
  destruct (classify_variables FO hint_code) as [[[i o] io]|] eqn:Hc; [|discriminate].
  destruct (classify_invariant_of FO hint_code i o io Hc) as (Hk & Hv).
  rewrite !Forall_app in Hk, Hv. destruct Hk as (Hki & _), Hv as (Hvi & _).
  apply Forall_sanitized_nlfree in Hki.
  unfold assemble.
  destruct (main_func_of (structs_dict_of SO i o) i) as [main_func|] eqn:Hm; [|discriminate].
  destruct (hint_func_of (structs_dict_of SO i o) hint_code i o io) as [hint_func|] eqn:Hh;
    [|discriminate].
  intros [= <-]. unfold main_func_of in Hm.
  destruct (foldM (main_var_assignment (structs_dict_of SO i o)) i []) as [acc|] eqn:Hf;
    [|discriminate].
  apply Some_inj in Hm. subst main_func.
  apply main_assignments_lines in Hf as (lets & Hl & ->).
  exists i, o, io, lets, hint_func.
  split; [reflexivity|]. split; [assumption|]. split; [assumption|].
  apply f_equal. apply (f_equal (fun x => x ++ str_split NL hint_func)).
  pose proof (let_lines_nlfree _ i lets Hki Hvi Hl) as Hn.
  assert (Hj : nlfree (str_join (py ", ") (dict_keys i)))
    by (apply nlfree_join; [nl_text|assumption]).
  assert (E : py "func main() {" ++ ([] ++ concat (map (fun l => NL :: l) lets)) ++ [NL; TAB] ++
              py "hint_func(" ++ str_join (py ", ") (dict_keys i) ++ py ");" ++ [NL; TAB] ++
              py "return();" ++ [NL] ++ py "}"
            = py "func main() {" ++ concat (map (fun l => NL :: l) lets) ++ NL ::
              ([TAB] ++ py "hint_func(" ++ str_join (py ", ") (dict_keys i) ++ py ");") ++ NL ::
              ([TAB] ++ py "return();") ++ NL :: py "}")
    by (cbn [app]; rewrite <- ?app_assoc; reflexivity).
  rewrite E, split_lets; [|nl_text|assumption].
  rewrite str_split_head by nl_text.
  rewrite str_split_head by nl_text.
  rewrite (str_split_free NL (py "}")) by nl_text.
  reflexivity.
Qed.

(** X15 at a concrete input. *)
Lemma main_routine_lines_witness :
  exists i o io lets hint_func,
    classify_variables (insertion_order pystr) hint_sum = Some (i, o, io) /\
    mapM (let_line (structs_dict_of (insertion_order shape) i o)) i = Some lets /\
    hint_func_of (structs_dict_of (insertion_order shape) i o) hint_sum i o io
    = Some hint_func /\
    sum_program (py "MyStruct0") (py "x") (py "y")
    = str_split NL (declared_structs_of (structs_dict_of (insertion_order shape) i o)) ++
      (py "func main() {" :: lets ++
       [[TAB] ++ py "hint_func(" ++ str_join (py ", ") (dict_keys i) ++ py ");";
        [TAB] ++ py "return();";
        py "}"]) ++
      str_split NL hint_func.
Proof.
  apply (main_routine_lines (insertion_order shape) (insertion_order pystr)
           hint_sum (sum_program (py "MyStruct0") (py "x") (py "y"))).
  vm_compute. reflexivity.
Defined.

Lemma local_lines_nlfree (fields : list shape) (o : dict pystr shape) (locals : list pystr) :
  Forall nlfree (dict_keys o) ->
  mapM (local_declare (structs_dict_from fields)) o = Some locals ->
  Forall nlfree locals.
Proof.
  intros Hk H. apply mapM_Forall2 in H. unfold dict_keys in Hk.
  induction H as [|[name v] y l r Hxy _ IH]; [constructor|].
  inversion Hk; subst. constructor; [|now apply IH].
  unfold local_declare in Hxy. cbn [fst snd] in *.
  destruct (dict_get shape_eqb (structs_dict_from fields) v) as [res_struct|] eqn:E;
    [|discriminate].
  apply Some_inj in Hxy. subst y. apply structs_dict_values_nlfree in E. nl_text.
Qed.

(** X16.  When a program is produced, [hint_func] declares its locals right after
    [alloc_locals]: one line per Output variable, in the order of the
    mapping, with its type name; with no Output variable there is one empty
    line instead.  The hint block follows. *)
Theorem hint_routine_locals (SO : SetOrder shape) (FO : SetOrder pystr)
    (hint_code : pystr) (out : list pystr) :
  generate_cairo_hint_program SO FO hint_code = Some out ->
  exists i o io locals before after,
    classify_variables FO hint_code = Some (i, o, io) /\
    mapM (local_declare (structs_dict_of SO i o)) o = Some locals /\
    out = before ++
          ([TAB] ++ py "alloc_locals;") ::
          match locals with [] => [[]] | _ :: _ => locals end ++
          [py "%{"] ++ after.
Proof.
  unfold generate_cairo_hint_program.
  destruct (classify_variables FO hint_code) as [[[i o] io]|] eqn:Hc; [|discriminate].
  destruct (classify_names_NL FO hint_code i o io Hc) as (Hi & Ho & Hio).
  unfold assemble.
  destruct (main_func_of (structs_dict_of SO i o) i) as [main_func|]; [|discriminate].
  unfold hint_func_of.
  destruct (signature_of (structs_dict_of SO i o) i o io) as [signature|] eqn:Hs; [|discriminate].
  destruct (mapM (local_declare _) o) as [locals|] eqn:Hl; [|discriminate].
  intros [= <-].
  rewrite hint_func_text_lines;
    [|exact (signature_nlfree (fields_of SO i o) i o io signature Hi Hs)
     |apply nlfree_join; [nl_text|now apply dict_keys_nlfree_union]].
  rewrite (split_join_lines locals (local_lines_nlfree _ o locals Ho Hl)).
  exists i, o, io, locals.
  exists (str_split NL (declared_structs_of (structs_dict_of SO i o)) ++
          str_split NL main_func ++ [py "func hint_func" ++ signature ++ py " {"]).
  exists (str_split NL hint_code ++
          [py "%}";
           [TAB] ++ py "return(" ++
             str_join (py ", ") (dict_keys (dict_union str_eqb o io)) ++ py ");";
           py "}"]).
  split; [reflexivity|]. split; [exact Hl|].
  rewrite <- !app_assoc. reflexivity.
Qed.

(** X16 at a concrete input. *)
Lemma hint_routine_locals_witness :
  exists i o io locals before after,
    classify_variables (insertion_order pystr) hint_sum = Some (i, o, io) /\
    mapM (local_declare (structs_dict_of (insertion_order shape) i o)) o = Some locals /\
    sum_program (py "MyStruct0") (py "x") (py "y")
    = before ++
      ([TAB] ++ py "alloc_locals;") ::
      match locals with [] => [[]] | _ :: _ => locals end ++
      [py "%{"] ++ after.
Proof.
  apply (hint_routine_locals (insertion_order shape) (insertion_order pystr)
           hint_sum (sum_program (py "MyStruct0") (py "x") (py "y"))).
  vm_compute. reflexivity.
Defined.

(** ** The lines joined again *)

Lemma join_split (c : N) (s : pystr) : str_join [c] (str_split c s) = s.
Proof.
  induction s as [|x s IH]; [reflexivity|].
  rewrite str_split_cons. destruct (x =? c)%N eqn:E.
  - apply N.eqb_eq in E. subst x.
    destruct (str_split c s) as [|h r] eqn:Es; [now apply str_split_not_nil in Es|].
    change (str_join [c] ([] :: h :: r)) with (c :: str_join [c] (h :: r)).
    now rewrite IH.
  - destruct (str_split c s) as [|h r] eqn:Es; [now apply str_split_not_nil in Es|].
    rewrite <- IH. destruct r; reflexivity.
Qed.

Lemma join_app (sep : pystr) (l1 l2 : list pystr) :
  l1 <> [] -> l2 <> [] ->
  str_join sep (l1 ++ l2) = str_join sep l1 ++ sep ++ str_join sep l2.
Proof.
  intros H1 H2. induction l1 as [|x l1 IH]; [contradiction|].
  destruct l1 as [|y l1].
  - destruct l2; [contradiction|reflexivity].
  - change (str_join sep ((x :: y :: l1) ++ l2))
      with (x ++ sep ++ str_join sep ((y :: l1) ++ l2)).
    rewrite IH by discriminate.
    change (str_join sep (x :: y :: l1)) with (x ++ sep ++ str_join sep (y :: l1)).
    now rewrite <- !app_assoc.
Qed.

(** X18.  When a program is produced, joining its lines with line breaks gives
    the text of the declarations, that of [main] and that of [hint_func],
    one line break between them. *)
Theorem program_text (SO : SetOrder shape) (FO : SetOrder pystr)
    (hint_code : pystr) (out : list pystr) :
  generate_cairo_hint_program SO FO hint_code = Some out ->
  exists i o io main_func hint_func,
    classify_variables FO hint_code = Some (i, o, io) /\
    main_func_of (structs_dict_of SO i o) i = Some main_func /\
    hint_func_of (structs_dict_of SO i o) hint_code i o io = Some hint_func /\
    str_join [NL] out
    = declared_structs_of (structs_dict_of SO i o) ++ NL :: main_func ++ NL :: hint_func.
Proof.
  unfold generate_cairo_hint_program.
  destruct (classify_variables FO hint_code) as [[[i o] io]|] eqn:Hc; [|discriminate].
  unfold assemble.
  destruct (main_func_of (structs_dict_of SO i o) i) as [main_func|] eqn:Hm; [|discriminate].
  destruct (hint_func_of (structs_dict_of SO i o) hint_code i o io) as [hint_func|] eqn:Hh;
    [|discriminate].
  intros [= <-]. exists i, o, io, main_func, hint_func.
  split; [reflexivity|]. split; [assumption|]. split; [assumption|].
  rewrite join_app;
    [|apply str_split_not_nil
     |intro E; apply app_eq_nil in E as [E _]; now apply str_split_not_nil in E].
  rewrite join_app by apply str_split_not_nil.
  now rewrite !join_split.
Qed.

(** X18 at a concrete input. *)
Lemma program_text_witness :
  exists i o io main_func hint_func,
    classify_variables (insertion_order pystr) hint_sum = Some (i, o, io) /\
    main_func_of (structs_dict_of (insertion_order shape) i o) i = Some main_func /\
    hint_func_of (structs_dict_of (insertion_order shape) i o) hint_sum i o io
    = Some hint_func /\
    str_join [NL] (sum_program (py "MyStruct0") (py "x") (py "y"))
    = declared_structs_of (structs_dict_of (insertion_order shape) i o) ++
      NL :: main_func ++ NL :: hint_func.
Proof.
  apply (program_text (insertion_order shape) (insertion_order pystr)
           hint_sum (sum_program (py "MyStruct0") (py "x") (py "y"))).
  vm_compute. reflexivity.
Defined.

(** ** The declaration of one struct *)

Lemma struct_decl_lines (name : pystr) (fs : list pystr) :
  nlfree name -> fs <> [] -> Forall nlfree fs ->
  str_split NL (struct_decl name (Tuple fs))
  = (py "struct " ++ name ++ py " {") ::
    map (fun field_name => [TAB] ++ field_name ++ py ": felt,") fs ++ [py "}"].
Proof.
  intros Hn Hne Hf. unfold struct_decl. cbn [shape_iter].
  set (lines := map (fun field_name => [TAB] ++ field_name ++ py ": felt,") fs).
  assert (E : py "struct " ++ name ++ py " {" ++ [NL] ++ str_join [NL] lines ++ [NL] ++ py "}"
            = (py "struct " ++ name ++ py " {") ++ NL :: str_join [NL] lines ++ NL :: py "}")
    by (now rewrite <- !app_assoc).
  rewrite E, str_split_head by nl_text.
  rewrite str_split_app, split_join_lines.
  - rewrite (str_split_free NL (py "}")) by nl_text.
    destruct lines eqn:El; [|reflexivity].
    destruct fs; [contradiction|discriminate El].
  - unfold lines. apply Forall_forall. intros x Hx. apply in_map_iff in Hx as [f [<- Hin]].
    rewrite Forall_forall in Hf. specialize (Hf f Hin). nl_text.
Qed.

(** X14.  Every tuple shape of a variable of Input | Output has a type name, and
    the declarations hold its struct as one block: the header with that
    name, one line per field in the order of the tuple, and the closing
    brace. *)
Theorem struct_declaration_block (SO : SetOrder shape) (FO : SetOrder pystr)
    (hint_code : pystr) (i o io : dict pystr shape) (fs : list pystr) :
  classify_variables FO hint_code = Some (i, o, io) ->
  In (Tuple fs) (dict_values (dict_union str_eqb i o)) ->
  exists struct_name before after,
    dict_get shape_eqb (structs_dict_of SO i o) (Tuple fs) = Some struct_name /\
    str_split NL (declared_structs_of (structs_dict_of SO i o))
    = before ++
      (py "struct " ++ struct_name ++ py " {") ::
      map (fun field_name => [TAB] ++ field_name ++ py ": felt,") fs ++
      py "}" :: after.
Proof.
  intros Hc Hin.
  destruct (classify_invariant_of FO hint_code i o io Hc) as (_ & Hv).
  rewrite !Forall_app in Hv. destruct Hv as (Hvi & Hvo & _).
  assert (Hok : shape_ok (Tuple fs)).
  { apply (dict_update_values_incl str_eqb) in Hin.
    rewrite Forall_forall in Hvi, Hvo. apply in_app_or in Hin as [H|H]; auto. }
  destruct Hok as (Hne & _ & Hs).
  destruct (structs_dict_of_lookup SO i o (Tuple fs) Hin) as [struct_name G].
  exists struct_name.
  pose proof (structs_dict_values_nlfree _ _ _ G) as Hn.
  assert (Hname : struct_name <> py "felt").
  { intros ->. discriminate (type_names_felt_only SO i o (Tuple fs) G). }
  unfold declared_structs_of.
  set (decls := map _ _).
  assert (Hd : In (struct_decl struct_name (Tuple fs)) decls).
  { unfold decls. apply in_map_iff. exists (Tuple fs, struct_name). split; [reflexivity|].
    apply filter_In. split.
    - now apply (dict_get_In shape_eqb shape_eqb_eq).
    - simpl. apply negb_true_iff. now apply str_eqb_neq. }
  apply in_split in Hd as (l1 & l2 & Hd).
  rewrite split_joined_texts by (rewrite Hd; now destruct l1).
  rewrite Hd, map_app, concat_app. simpl map. simpl concat.
  rewrite struct_decl_lines; [|assumption..|now apply Forall_sanitized_nlfree].
  exists (concat (map (str_split NL) l1)), (concat (map (str_split NL) l2)).
  split; [exact G|]. simpl. now rewrite <- !app_assoc.
Qed.

(** X14 at a concrete input. *)
Lemma struct_declaration_block_witness :
  exists struct_name before after,
    dict_get shape_eqb
      (structs_dict_of (insertion_order shape)
         [(py "b", Tuple [py "x"; py "y"])] [(py "a", Felt)])
      (Tuple [py "x"; py "y"]) = Some struct_name /\
    str_split NL
      (declared_structs_of
         (structs_dict_of (insertion_order shape)
            [(py "b", Tuple [py "x"; py "y"])] [(py "a", Felt)]))
    = before ++
      (py "struct " ++ struct_name ++ py " {") ::
      map (fun field_name => [TAB] ++ field_name ++ py ": felt,") [py "x"; py "y"] ++
      py "}" :: after.
Proof.
  apply (struct_declaration_block (insertion_order shape) (insertion_order pystr)
           hint_sum _ _ []).
  - vm_compute. reflexivity.
  - vm_compute. now left.
Defined.

(** * Names and the occurrences they come from *)

Lemma bucket_of_written (b : buckets) (d d' : direction) (x : dict pystr set_shape) :
  bucket_of (with_bucket b d x) d' = if
    match d, d' with
    | Inout, Inout | Input, Input | Output, Output => true
    | _, _ => false
    end then x else bucket_of b d'.
Proof. now destruct d, d'. Qed.

Lemma classify_var_keeps_in (d : direction) (name line : pystr) (b b' : buckets) (var : pystr) :
  classify_var line b var = Some b' ->
  dict_has str_eqb (bucket_of b d) name = true ->
  dict_has str_eqb (bucket_of b' d) name = true.
Proof.
  intros H Hd. apply classify_var_writes in H as (n & v & _ & ->).
  apply bucket_of_with_bucket; [assumption|].
  rewrite (dict_has_set str_eqb str_eqb_eq).
  destruct (dict_has str_eqb (bucket_of b (dict_to_insert line var)) name);
    [now rewrite orb_true_r|reflexivity].
Qed.

(** Every name of a bucket comes from an occurrence sent to that bucket. *)
Lemma scan_names_occur (hint_code : pystr) (b : buckets) :
  scan hint_code = Some b ->
  forall d name, dict_has str_eqb (bucket_of b d) name = true -> occurs_as hint_code name d.
Proof.
  pose (P := fun b : buckets =>
    forall d name, dict_has str_eqb (bucket_of b d) name = true -> occurs_as hint_code name d).
  unfold scan.
  apply (foldM_invariant P
           (fun line => exists raw, In raw (str_split NL hint_code) /\
                                    contains (py "ids.") raw = true /\
                                    line = multi_replace raw PATTERNS)).
  - intros s line s' (raw & Hraw & Hids & ->) Hs. unfold classify_line.
    apply (foldM_invariant P
             (fun var => In var (str_split_ws (multi_replace raw PATTERNS)) /\
                         contains (py "ids.") var = true)).
    + intros s0 var s1 (Hvar & Hv) Hs0 Hstep.
      apply classify_var_writes_name in Hstep as (n & v & Hn & ->).
      intros d name Hd. rewrite bucket_of_written in Hd.
      destruct (match dict_to_insert (multi_replace raw PATTERNS) var, d with
                | Inout, Inout | Input, Input | Output, Output => true
                | _, _ => false
                end) eqn:E; [|now apply Hs0].
      assert (Ed : dict_to_insert (multi_replace raw PATTERNS) var = d)
        by (destruct (dict_to_insert _ var), d; congruence).
      rewrite (dict_has_set str_eqb str_eqb_eq) in Hd.
      destruct (str_eqb name n) eqn:En.
      * apply str_eqb_eq in En. subst n. now exists raw, var.
      * apply Hs0. now rewrite <- Ed.
    + apply Forall_forall. intros var Hvar. now apply filter_In in Hvar.
    + assumption.
  - unfold hint_lines. apply Forall_forall. intros line H.
    apply in_map_iff in H as [raw [<- Hraw]]. apply filter_In in Hraw as [Hraw Hids].
    now exists raw.
  - intros d name Hd. destruct d; discriminate Hd.
Qed.

(** Every occurrence sent to a bucket leaves its name in that bucket. *)
Lemma scan_occurrence_kept (hint_code : pystr) (b : buckets) (d : direction) (name : pystr) :
  scan hint_code = Some b ->
  occurs_as hint_code name d ->
  dict_has str_eqb (bucket_of b d) name = true.
Proof.
  intros Hs (raw & var & Hraw & Hids & Hvar & Hv & Hn & Hd).
  pose (Q := fun b : buckets => dict_has str_eqb (bucket_of b d) name = true).
  unfold scan in Hs.
  apply (foldM_establish Q classify_line (multi_replace raw PATTERNS))
    with (l := hint_lines hint_code) (s := empty_buckets).
  - intros s line s' Hstep Hp. unfold classify_line in Hstep.
    apply (foldM_invariant Q (fun _ => True) (classify_var line)) with (3 := Hp) (4 := Hstep).
    + intros s0 y s1 _ Hs0 Hy. now apply (classify_var_keeps_in d name line s0 s1 y).
    + apply Forall_forall. trivial.
  - intros s s' Hstep. unfold classify_line in Hstep.
    apply (foldM_establish Q (classify_var (multi_replace raw PATTERNS)) var)
      with (4 := Hstep).
    + intros s0 y s1 Hy Hs0.
      now apply (classify_var_keeps_in d name (multi_replace raw PATTERNS) s0 s1 y).
    + intros s0 s1 Hy. apply classify_var_writes_name in Hy as (n & v & Hn' & ->).
      rewrite Hn in Hn'. injection Hn' as <-. unfold Q.
      rewrite Hd, bucket_of_written.
      replace (match d, d with
               | Inout, Inout | Input, Input | Output, Output => true
               | _, _ => false
               end) with true by now destruct d.
      unfold dict_has. now rewrite (dict_get_set str_eqb str_eqb_eq), str_eqb_refl.
    + apply filter_In. now split.
  - unfold hint_lines. apply in_map_iff. exists raw. split; [reflexivity|].
    apply filter_In. now split.
  - assumption.
Qed.

(** C7, as stated, fails: on the hint [x = ids.a], [ids.a = 1] the name [a]
    is in the Output mapping and not in the Inout mapping, and yet it is in
    the merged Input mapping. *)
Lemma C7_counterexample :
  ~ (forall (FO : SetOrder pystr) i o io name,
        classify_variables FO hint_read_then_written = Some (i, o, io) ->
        dict_has str_eqb o name = true ->
        dict_has str_eqb io name = false ->
        dict_has str_eqb i name = false).
Proof.
  intro H.
  assert (E : dict_has str_eqb [(py "a", Felt)] (py "a") = false).
  { apply (H (insertion_order pystr) [(py "a", Felt)] [(py "a", Felt)] [] (py "a"));
      vm_compute; reflexivity. }
  discriminate E.
Qed.

(** C7 (amended).  After the merge of Inout into Input, a name is in the
    Input mapping exactly when one of its occurrences is sent to Input or to
    Inout by the direction test of its line; it is in the Output mapping
    exactly when one of its occurrences is sent to Output, and in the Inout
    mapping exactly when one is sent to Inout.  So a name all of whose
    occurrences are sent to Output is not in the merged Input mapping, and a
    name written on one line and read on another is in both. *)
Theorem C7_names_by_occurrence (FO : SetOrder pystr) (hint_code : pystr) :
  exists i o io,
    classify_variables FO hint_code = Some (i, o, io) /\
    forall name,
      (dict_has str_eqb i name = true <->
       occurs_as hint_code name Input \/ occurs_as hint_code name Inout) /\
      (dict_has str_eqb o name = true <-> occurs_as hint_code name Output) /\
      (dict_has str_eqb io name = true <-> occurs_as hint_code name Inout) /\
      (~ occurs_as hint_code name Input -> ~ occurs_as hint_code name Inout ->
       dict_has str_eqb i name = false).
Proof.
  destruct (scan_total hint_code) as [b Hb].
  assert (Hc : classify_variables FO hint_code
               = Some (dict_union str_eqb (freeze_dict FO (input_vars b))
                                  (freeze_dict FO (inout_vars b)),
                       freeze_dict FO (output_vars b), freeze_dict FO (inout_vars b)))
    by (unfold classify_variables; now rewrite Hb).
  do 3 eexists. split; [exact Hc|]. intro name.
  destruct (merged_input_names FO hint_code b _ _ _ name Hb Hc) as (Hi & Ho & Hio).
  assert (B : forall d, dict_has str_eqb (bucket_of b d) name = true <-> occurs_as hint_code name d).
  { intro d. split; [apply (scan_names_occur hint_code b Hb)|apply (scan_occurrence_kept _ _ _ _ Hb)]. }
  set (i := dict_union str_eqb (freeze_dict FO (input_vars b)) (freeze_dict FO (inout_vars b))) in *.
  assert (I : dict_has str_eqb i name = true <->
              occurs_as hint_code name Input \/ occurs_as hint_code name Inout).
  { rewrite Hi, Hio, orb_true_iff. rewrite <- (B Input), <- (B Inout). reflexivity. }
  split; [exact I|]. split; [|split].
  - rewrite Ho. exact (B Output).
  - rewrite Hio. exact (B Inout).
  - intros H1 H2. destruct (dict_has str_eqb i name) eqn:E; [|reflexivity].
    exfalso. destruct (proj1 I eq_refl); contradiction.
Qed.

(** * Type names are declared before they are used *)

Lemma type_names_of_lets (sd : dict shape pystr) (i : dict pystr shape) (lets : list pystr) :
  mapM (let_line sd) i = Some lets ->
  exists in_types,
    mapM (dict_get shape_eqb sd) (dict_values i) = Some in_types /\
    lets = map (fun p => let_text (fst (fst p)) (snd p) (snd (fst p))) (combine i in_types) /\
    mapM (hint_input_var sd) i
    = Some (map (fun p => param_text (fst (fst p)) (snd p)) (combine i in_types)).
Proof.
  revert lets; induction i as [|[name v] i IH]; intros lets H; simpl in H.
  - apply Some_inj in H. subst lets. now exists [].
  - unfold let_line at 1 in H. cbn [fst snd] in H.
    destruct (dict_get shape_eqb sd v) as [t|] eqn:G; [|discriminate].
    destruct (mapM (let_line sd) i) as [lets'|]; [|destruct (str_eqb t (py "felt")); discriminate].
    destruct (IH lets' eq_refl) as (in_types & Ht & -> & Hp).
    exists (t :: in_types). simpl. unfold hint_input_var at 1. cbn [fst snd].
    rewrite G, Ht, Hp. repeat split.
    unfold let_text at 1.
    destruct (str_eqb t (py "felt")); apply Some_inj in H; now subst lets.
Qed.

Lemma main_func_lines (fields : list shape) (i : dict pystr shape) (main_func : pystr) :
  Forall nlfree (dict_keys i) -> Forall shape_ok (dict_values i) ->
  main_func_of (structs_dict_from fields) i = Some main_func ->
  exists lets,
    mapM (let_line (structs_dict_from fields)) i = Some lets /\
    str_split NL main_func
    = py "func main() {" :: lets ++
      [[TAB] ++ py "hint_func(" ++ str_join (py ", ") (dict_keys i) ++ py ");";
       [TAB] ++ py "return();";
       py "}"].
Proof.
  intros Hk Hv Hm. unfold main_func_of in Hm.
  destruct (foldM (main_var_assignment (structs_dict_from fields)) i []) as [acc|] eqn:Hf;
    [|discriminate].
  apply Some_inj in Hm. subst main_func.
  apply main_assignments_lines in Hf as (lets & Hl & ->).
  exists lets. split; [assumption|].
  pose proof (let_lines_nlfree _ i lets Hk Hv Hl) as Hn.
  assert (Hj : nlfree (str_join (py ", ") (dict_keys i)))
    by (apply nlfree_join; [nl_text|assumption]).
  assert (E : py "func main() {" ++ ([] ++ concat (map (fun l => NL :: l) lets)) ++ [NL; TAB] ++
              py "hint_func(" ++ str_join (py ", ") (dict_keys i) ++ py ");" ++ [NL; TAB] ++
              py "return();" ++ [NL] ++ py "}"
            = py "func main() {" ++ concat (map (fun l => NL :: l) lets) ++ NL ::
              ([TAB] ++ py "hint_func(" ++ str_join (py ", ") (dict_keys i) ++ py ");") ++ NL ::
              ([TAB] ++ py "return();") ++ NL :: py "}")
    by (cbn [app]; rewrite <- ?app_assoc; reflexivity).
  rewrite E, split_lets; [|nl_text|assumption].
  rewrite str_split_head by nl_text.
  rewrite str_split_head by nl_text.
  rewrite (str_split_free NL (py "}")) by nl_text.
  reflexivity.
Qed.

Lemma hint_func_header (fields : list shape) (hint_code : pystr)
    (i o io : dict pystr shape) (hint_func : pystr) :
  Forall nlfree (dict_keys i) -> Forall nlfree (dict_keys o) -> Forall nlfree (dict_keys io) ->
  hint_func_of (structs_dict_from fields) hint_code i o io = Some hint_func ->
  exists params ret_types body,
    mapM (hint_input_var (structs_dict_from fields)) i = Some params /\
    mapM (dict_get shape_eqb (structs_dict_from fields))
         (dict_values (dict_union str_eqb o io)) = Some ret_types /\
    str_split NL hint_func
    = (py "func hint_func(" ++ str_join (py ", ") params ++ py ") -> " ++
       return_type_text ret_types ++ py " {") :: body.
Proof.
  intros Hi Ho Hio. unfold hint_func_of.
  destruct (signature_of (structs_dict_from fields) i o io) as [signature|] eqn:Hs;
    [|discriminate].
  destruct (mapM (local_declare _) o) as [locals|]; [|discriminate].
  intro H. apply Some_inj in H. subst hint_func.
  pose proof (signature_nlfree fields i o io signature Hi Hs) as Hnl.
  rewrite hint_func_text_lines;
    [|assumption|apply nlfree_join; [nl_text|now apply dict_keys_nlfree_union]].
  unfold signature_of in Hs.
  destruct (mapM (hint_input_var _) i) as [params|]; [|discriminate].
  destruct (mapM (dict_get shape_eqb _) _) as [ret_types|] eqn:Ht; [|discriminate].
  assert (Hlen : length ret_types = length (dict_union str_eqb o io)).
  { apply mapM_Forall2, Forall2_length in Ht. unfold dict_values in Ht.
    now rewrite length_map in Ht. }
  exists params, ret_types. eexists. split; [reflexivity|]. split; [reflexivity|].
  unfold return_type_text. rewrite Hlen.
  destruct (length (dict_union str_eqb o io) =? 1)%nat;
    apply Some_inj in Hs; subst signature; rewrite <- !app_assoc; reflexivity.
Qed.

Lemma looked_up_names_declared (fields : list shape) (vs : list shape) (types : list pystr) :
  mapM (dict_get shape_eqb (structs_dict_from fields)) vs = Some types ->
  forall t, In t types -> t <> py "felt" ->
    In (py "struct " ++ t ++ py " {")
       (str_split NL (declared_structs_of (structs_dict_from fields))).
Proof.
  intros H t Ht Hn. apply mapM_Forall2 in H.
  induction H as [|v y l r Hvy _ IH]; [destruct Ht|].
  destruct Ht as [->|Ht]; [|now apply IH].
  now apply (declared_structs_has fields v).
Qed.

(** C5.  When a program is produced, its lines are the struct declarations,
    then [main], then [hint_func].  With [in_types] the type names of the
    Input variables and [ret_types] those of the variables of
    Output | Inout, [main] is written out below with each Input variable's
    [let] line naming its type, and the first line of [hint_func] is the
    signature written out with the parameter types [in_types] and the return
    types [ret_types].  Every one of these type names other than [felt] has
    its line [struct NAME {] among the declarations, which come first. *)
Theorem C5_type_names_declared_before_use (SO : SetOrder shape) (FO : SetOrder pystr)
    (hint_code : pystr) (out : list pystr) :
  generate_cairo_hint_program SO FO hint_code = Some out ->
  exists i o io in_types ret_types body,
    classify_variables FO hint_code = Some (i, o, io) /\
    length in_types = length i /\
    length ret_types = length (dict_union str_eqb o io) /\
    out = str_split NL (declared_structs_of (structs_dict_of SO i o)) ++
          (py "func main() {" ::
           map (fun p => let_text (fst (fst p)) (snd p) (snd (fst p))) (combine i in_types) ++
           [[TAB] ++ py "hint_func(" ++ str_join (py ", ") (dict_keys i) ++ py ");";
            [TAB] ++ py "return();";
            py "}"]) ++
          (py "func hint_func(" ++
           str_join (py ", ")
             (map (fun p => param_text (fst (fst p)) (snd p)) (combine i in_types)) ++
           py ") -> " ++ return_type_text ret_types ++ py " {") :: body /\
    forall t, In t (in_types ++ ret_types) -> t <> py "felt" ->
      In (py "struct " ++ t ++ py " {")
         (str_split NL (declared_structs_of (structs_dict_of SO i o))).
Proof.
  unfold generate_cairo_hint_program.
  destruct (classify_variables FO hint_code) as [[[i o] io]|] eqn:Hc; [|discriminate].
  destruct (classify_names_NL FO hint_code i o io Hc) as (Hi & Ho & Hio).
  destruct (classify_invariant_of FO hint_code i o io Hc) as (_ & Hv).
  rewrite !Forall_app in Hv. destruct Hv as (Hvi & _).
  unfold assemble, structs_dict_of.
  destruct (main_func_of _ i) as [main_func|] eqn:Hm; [|discriminate].
  destruct (hint_func_of _ hint_code i o io) as [hint_func|] eqn:Hh; [|discriminate].
  intro H. apply Some_inj in H. subst out.
  destruct (main_func_lines _ i main_func Hi Hvi Hm) as (lets & Hl & ->).
  destruct (hint_func_header _ hint_code i o io hint_func Hi Ho Hio Hh)
    as (params & ret_types & body & Hp & Hr & ->).
  destruct (type_names_of_lets _ i lets Hl) as (in_types & Ht & -> & Hp').
  rewrite Hp' in Hp. apply Some_inj in Hp. subst params.
  exists i, o, io, in_types, ret_types, body.
  split; [reflexivity|]. split; [|split; [|split; [reflexivity|]]].
  - apply mapM_Forall2, Forall2_length in Ht. unfold dict_values in Ht.
    now rewrite length_map in Ht.
  - apply mapM_Forall2, Forall2_length in Hr. unfold dict_values in Hr.
    now rewrite length_map in Hr.
  - intros t Hin Hn. apply in_app_or in Hin as [Hin|Hin].
    + exact (looked_up_names_declared _ _ _ Ht t Hin Hn).
    + exact (looked_up_names_declared _ _ _ Hr t Hin Hn).
Qed.

(** C5 at the hint [ids.a = ids.b.x + ids.b.y], sets iterating in insertion
    order: the program is [sum_program] with [MyStruct0]. *)
Lemma C5_witness :
  exists i o io in_types ret_types body,
    classify_variables (insertion_order pystr) hint_sum = Some (i, o, io) /\
    length in_types = length i /\
    length ret_types = length (dict_union str_eqb o io) /\
    sum_program (py "MyStruct0") (py "x") (py "y")
    = str_split NL (declared_structs_of (structs_dict_of (insertion_order shape) i o)) ++
      (py "func main() {" ::
       map (fun p => let_text (fst (fst p)) (snd p) (snd (fst p))) (combine i in_types) ++
       [[TAB] ++ py "hint_func(" ++ str_join (py ", ") (dict_keys i) ++ py ");";
        [TAB] ++ py "return();";
        py "}"]) ++
      (py "func hint_func(" ++
       str_join (py ", ")
         (map (fun p => param_text (fst (fst p)) (snd p)) (combine i in_types)) ++
       py ") -> " ++ return_type_text ret_types ++ py " {") :: body /\
    forall t, In t (in_types ++ ret_types) -> t <> py "felt" ->
      In (py "struct " ++ t ++ py " {")
         (str_split NL (declared_structs_of (structs_dict_of (insertion_order shape) i o))).
Proof.
  apply (C5_type_names_declared_before_use (insertion_order shape) (insertion_order pystr)
           hint_sum (sum_program (py "MyStruct0") (py "x") (py "y"))).
  vm_compute. reflexivity.
Defined.
